(** * A line-oriented JSON-RPC tool server (examples/python/server.py)

    Shallow embedding of the Python example server: the values its
    handlers compute with, the texts Python renders for them, the effects
    of a handler (lines written to the two output channels, exceptions),
    the handlers themselves and the message loop.

    Characters are Rocq's 8-bit [ascii]: a [string] stands for a Python
    [str] whose code points are all below 256. *)

From Stdlib Require Import ZArith List Bool Ascii String Lia.
From Stdlib Require Import Numbers.DecimalString.
Import ListNotations.
Open Scope list_scope.
Open Scope string_scope.

Set Warnings "-register-all".

(** ** Python values *)

(** A Python [float].  The server never computes with a float: it can only
    echo one back or format it into a message, so a float is kept as the
    two texts Python prints for it. *)
Record pyfloat : Type := mk_pyfloat {
  float_repr : string;   (* repr(x), also str(x) and f"{x}" *)
  float_json : string    (* what json.dumps writes for x *)
}.

(** What [json.loads] can return, and what the handlers build: [None],
    [bool], [int], [float], [str], [list] and [dict].  A dict keeps its
    insertion order, which [json.dumps] makes observable. *)
Inductive value : Type :=
| VNone
| VBool (b : bool)
| VInt (n : Z)
| VFloat (x : pyfloat)
| VStr (s : string)
| VList (items : list value)
| VDict (members : list (string * value)).

(** The members of a dict, in insertion order.  A Python dict holds a key
    once; a lookup here takes the first member under the key. *)
Definition dict : Type := list (string * value).

Fixpoint dict_get (key : string) (d : dict) : option value :=
  match d with
  | [] => None
  | (k, v) :: d' => if String.eqb k key then Some v else dict_get key d'
  end.

(** [d[key] = v]: a key already there keeps its place. *)
Fixpoint dict_set (key : string) (v : value) (d : dict) : dict :=
  match d with
  | [] => [(key, v)]
  | (k, w) :: d' =>
      if String.eqb k key then (k, v) :: d' else (k, w) :: dict_set key v d'
  end.

(** [type(v).__name__] *)
Definition type_name (v : value) : string :=
  match v with
  | VNone => "NoneType"
  | VBool _ => "bool"
  | VInt _ => "int"
  | VFloat _ => "float"
  | VStr _ => "str"
  | VList _ => "list"
  | VDict _ => "dict"
  end.

(** [v == s] for a string constant [s]: only the equal [str] compares equal. *)
Definition eq_str (v : value) (s : string) : bool :=
  match v with
  | VStr t => String.eqb t s
  | _ => false
  end.

(** ** Texts *)

Fixpoint join (sep : string) (l : list string) : string :=
  match l with
  | [] => EmptyString
  | [s] => s
  | s :: l' => s ++ sep ++ join sep l'
  end.

Fixpoint str_rev (s : string) : string :=
  match s with
  | EmptyString => EmptyString
  | String c s' => str_rev s' ++ String c EmptyString
  end.

Fixpoint str_mem (c : ascii) (s : string) : bool :=
  match s with
  | EmptyString => false
  | String c' s' => Ascii.eqb c c' || str_mem c s'
  end.

(** The double quote character. *)
Definition dquote : ascii := "034".

Definition int_str (n : Z) : string := NilEmpty.string_of_int (Z.to_int n).

Definition hex_digit (n : N) : ascii :=
  if (n <? 10)%N then ascii_of_N (48 + n) else ascii_of_N (87 + n).

Definition hex2 (c : ascii) : string :=
  let n := N_of_ascii c in
  String (hex_digit (n / 16)) (String (hex_digit (n mod 16)) EmptyString).

(** [str.isprintable] on one character below 256. *)
Definition printable (c : ascii) : bool :=
  let n := N_of_ascii c in
  ((32 <=? n) && (n <? 127) || (161 <=? n) && negb (n =? 173))%N.

Fixpoint repr_chars (quote : ascii) (s : string) : string :=
  match s with
  | EmptyString => EmptyString
  | String c s' =>
      (if Ascii.eqb c quote || Ascii.eqb c "\" then String "\" (String c EmptyString)
       else if Ascii.eqb c "009" then "\t"
       else if Ascii.eqb c "010" then "\n"
       else if Ascii.eqb c "013" then "\r"
       else if printable c then String c EmptyString
       else "\x" ++ hex2 c) ++ repr_chars quote s'
  end.

(** [repr(s)] of a [str]: single quotes, unless the text has a single
    quote and no double quote. *)
Definition str_repr (s : string) : string :=
  let quote : ascii :=
    if str_mem "'" s && negb (str_mem dquote s) then dquote else "'"%char in
  String quote (repr_chars quote s ++ String quote EmptyString).

Fixpoint py_repr (v : value) : string :=
  match v with
  | VNone => "None"
  | VBool true => "True"
  | VBool false => "False"
  | VInt n => int_str n
  | VFloat x => float_repr x
  | VStr s => str_repr s
  | VList l => "[" ++ join ", " (map py_repr l) ++ "]"
  | VDict d =>
      "{" ++ join ", " (map (fun kv : string * value => let (k, w) := kv in
                                    str_repr k ++ ": " ++ py_repr w) d) ++ "}"
  end.

(** [str(v)], which is what an f-string field [{v}] shows. *)
Definition py_str (v : value) : string :=
  match v with
  | VStr s => s
  | _ => py_repr v
  end.

Fixpoint json_chars (s : string) : string :=
  match s with
  | EmptyString => EmptyString
  | String c s' =>
      (if Ascii.eqb c dquote then String "\" (String dquote EmptyString)
       else if Ascii.eqb c "\" then "\\"
       else if Ascii.eqb c "010" then "\n"
       else if Ascii.eqb c "013" then "\r"
       else if Ascii.eqb c "009" then "\t"
       else if Ascii.eqb c "008" then "\b"
       else if Ascii.eqb c "012" then "\f"
       else if ((32 <=? N_of_ascii c) && (N_of_ascii c <? 127))%N
            then String c EmptyString
       else "\u00" ++ hex2 c) ++ json_chars s'
  end.

Definition json_string (s : string) : string :=
  String dquote (json_chars s ++ String dquote EmptyString).

(** [json.dumps(v)] with its defaults: ASCII only, [", "] between items
    and [": "] after a key. *)
Fixpoint json_dumps (v : value) : string :=
  match v with
  | VNone => "null"
  | VBool true => "true"
  | VBool false => "false"
  | VInt n => int_str n
  | VFloat x => float_json x
  | VStr s => json_string s
  | VList l => "[" ++ join ", " (map json_dumps l) ++ "]"
  | VDict d =>
      "{" ++ join ", " (map (fun kv : string * value => let (k, w) := kv in
                                    json_string k ++ ": " ++ json_dumps w) d) ++ "}"
  end.

(** [s.strip()]: the white space of [str.isspace] below 256. *)
Definition is_space (c : ascii) : bool :=
  let n := N_of_ascii c in
  ((9 <=? n) && (n <=? 13) || (28 <=? n) && (n <=? 32)
   || (n =? 133) || (n =? 160))%N.

Fixpoint lstrip (s : string) : string :=
  match s with
  | String c s' => if is_space c then lstrip s' else s
  | EmptyString => EmptyString
  end.

Definition strip (s : string) : string := str_rev (lstrip (str_rev (lstrip s))).

(** Truth value of a [str]: the empty one is false. *)
Definition nonempty (s : string) : bool :=
  match s with
  | EmptyString => false
  | String _ _ => true
  end.

(** ** Effects: exceptions and the two output channels *)

(** The exception classes the handlers tell apart.  [Exception_] is any
    other class under [Exception]; [KeyboardInterrupt] and [SystemExit]
    are the classes outside it. *)
Inductive exn_class : Type :=
| JSONDecodeError
| AttributeError
| KeyError
| TypeError
| Exception_
| KeyboardInterrupt
| SystemExit.

Record exn : Type := mk_exn {
  exn_cls : exn_class;
  exn_str : string          (* str(e) *)
}.

(** [isinstance(e, Exception)] *)
Definition is_Exception (e : exn) : bool :=
  match exn_cls e with
  | KeyboardInterrupt | SystemExit => false
  | _ => true
  end.

Definition is_JSONDecodeError (e : exn) : bool :=
  match exn_cls e with
  | JSONDecodeError => true
  | _ => false
  end.

Definition is_KeyboardInterrupt (e : exn) : bool :=
  match exn_cls e with
  | KeyboardInterrupt => true
  | _ => false
  end.

(** One [print] call: the text of one line, on stdout or on stderr. *)
Inductive event : Type :=
| Stdout (text : string)
| Stderr (text : string).

Inductive outcome (A : Type) : Type :=
| Returned (a : A)
| Raised (e : exn).

Arguments Returned {A} a.
Arguments Raised {A} e.

(** A statement: the lines it prints, in order, and how it ends. *)
Definition py (A : Type) : Type := list event * outcome A.

Definition ret {A : Type} (a : A) : py A := ([], Returned a).

Definition raise {A : Type} (c : exn_class) (descr : string) : py A :=
  ([], Raised (mk_exn c descr)).

Definition lift {A : Type} (o : outcome A) : py A := ([], o).

Definition bind {A B : Type} (m : py A) (k : A -> py B) : py B :=
  match m with
  | (t, Returned a) => let (t', r) := k a in ((t ++ t')%list, r)
  | (t, Raised e) => (t, Raised e)
  end.

Declare Scope py_scope.
Delimit Scope py_scope with py.
Notation "x <- m ;; k" := (bind m (fun x => k))
  (at level 100, m at next level, right associativity) : py_scope.
Notation "m ;;; k" := (bind m (fun _ => k))
  (at level 100, right associativity) : py_scope.
Open Scope py_scope.

(** [try: body / except C1 as e: h1 / except C2 as e: h2 ...]: the first
    clause whose class test accepts the exception handles it; what a
    handler raises is not caught here. *)
Fixpoint select_clause {A : Type} (clauses : list ((exn -> bool) * (exn -> py A)))
    (e : exn) : option (py A) :=
  match clauses with
  | [] => None
  | (accepts, handler) :: rest =>
      if accepts e then Some (handler e) else select_clause rest e
  end.

Definition try_except {A : Type} (body : py A)
    (clauses : list ((exn -> bool) * (exn -> py A))) : py A :=
  match body with
  | (t, Returned a) => (t, Returned a)
  | (t, Raised e) =>
      match select_clause clauses e with
      | Some (t', r) => ((t ++ t')%list, r)
      | None => (t, Raised e)
      end
  end.

(** [try: body / finally: final] *)
Definition try_finally {A : Type} (body : py A) (final : py unit) : py A :=
  match body, final with
  | (t, r), (t', Returned _) => ((t ++ t')%list, r)
  | (t, _), (t', Raised e) => ((t ++ t')%list, Raised e)
  end.

(** [for x in xs: body x] *)
Fixpoint for_each {A : Type} (xs : list A) (body : A -> py unit) : py unit :=
  match xs with
  | [] => ret tt
  | x :: xs' => body x ;;; for_each xs' body
  end.

Definition stdout_of {A : Type} (m : py A) : list string :=
  flat_map (fun ev => match ev with Stdout s => [s] | Stderr _ => [] end) (fst m).

Definition stderr_of {A : Type} (m : py A) : list string :=
  flat_map (fun ev => match ev with Stderr s => [s] | Stdout _ => [] end) (fst m).

(** ** Operations on values that can raise *)

(** [v.get(key, default)] *)
Definition get (v : value) (key : string) (default : value) : py value :=
  match v with
  | VDict d =>
      match dict_get key d with
      | Some w => ret w
      | None => ret default
      end
  | _ => raise AttributeError ("'" ++ type_name v ++ "' object has no attribute 'get'")
  end.

(** [v[key]] for a string key.  The handlers only subscript the decoded
    message, which is a dict by then; the other cases are here for
    completeness. *)
Definition getitem (v : value) (key : string) : py value :=
  match v with
  | VDict d =>
      match dict_get key d with
      | Some w => ret w
      | None => raise KeyError (str_repr key)
      end
  | VList _ => raise TypeError "list indices must be integers or slices, not str"
  | VStr _ => raise TypeError "string indices must be integers, not 'str'"
  | _ => raise TypeError ("'" ++ type_name v ++ "' object is not subscriptable")
  end.

(** [v[::-1]].  A [str] and a [list] have slices.  On a dict the slice is
    taken for a key (unhashable before Python 3.12, a missing key since);
    it raises in both. *)
Definition reversed (v : value) : py value :=
  match v with
  | VStr s => ret (VStr (str_rev s))
  | VList l => ret (VList (rev l))
  | VDict _ => raise TypeError "unhashable type: 'slice'"
  | _ => raise TypeError ("'" ++ type_name v ++ "' object is not subscriptable")
  end.

(** ** The server *)

Definition SERVER_INFO : value :=
  VDict [("name", VStr "python-example-server"); ("version", VStr "1.0.0")].

Definition TOOLS : value :=
  VList
    [ VDict
        [ ("name", VStr "calculate");
          ("description",
           VStr "Perform basic mathematical calculations - try changing this description!");
          ("inputSchema",
           VDict
             [ ("type", VStr "object");
               ("properties",
                VDict
                  [ ("expression",
                     VDict
                       [ ("type", VStr "string");
                         ("description",
                          VStr "Mathematical expression to evaluate (e.g., '2 + 2')") ]) ]);
               ("required", VList [VStr "expression"]) ]) ];
      VDict
        [ ("name", VStr "reverse_string");
          ("description", VStr "Reverse a given string");
          ("inputSchema",
           VDict
             [ ("type", VStr "object");
               ("properties",
                VDict
                  [ ("text",
                     VDict
                       [ ("type", VStr "string");
                         ("description", VStr "Text to reverse") ]) ]);
               ("required", VList [VStr "text"]) ]) ] ].

Definition log (message : string) : py unit :=
  ([Stderr ("[Python Server] " ++ message)], Returned tt).

Definition send_response (response : value) : py unit :=
  ([Stdout (json_dumps response)], Returned tt).

Definition handle_initialize (message : value) : py unit :=
  id <- getitem message "id" ;;
  send_response
    (VDict
       [ ("jsonrpc", VStr "2.0");
         ("id", id);
         ("result",
          VDict
            [ ("protocolVersion", VStr "2024-11-05");
              ("capabilities", VDict [("tools", VDict [])]);
              ("serverInfo", SERVER_INFO) ]) ]).

Definition handle_tools_list (message : value) : py unit :=
  id <- getitem message "id" ;;
  send_response
    (VDict
       [ ("jsonrpc", VStr "2.0");
         ("id", id);
         ("result", VDict [("tools", TOOLS)]) ]).

(** The success envelope of a tool call: one content item of type text. *)
Definition text_result (id : value) (text : string) : value :=
  VDict
    [ ("jsonrpc", VStr "2.0");
      ("id", id);
      ("result",
       VDict [("content", VList [VDict [("type", VStr "text"); ("text", VStr text)]])]) ].

Definition error_response (id : value) (code : Z) (message : string) : value :=
  VDict
    [ ("jsonrpc", VStr "2.0");
      ("id", id);
      ("error", VDict [("code", VInt code); ("message", VStr message)]) ].

Section Server.

(** [json.loads]: the decoded value, or the exception it raises
    ([JSONDecodeError] for a text that is not JSON). *)
Variable json_loads : string -> outcome value.

(** [eval] on a source text, in the two ways the handler can observe
    it when the expression only computes: it returns an object, given
    here by the text an f-string shows for it, or it raises.  An
    expression that writes to the output stream or changes what the
    server reads afterwards is followed in [Live] below. *)
Variable py_eval : string -> outcome string.

(** [eval(expression)] followed by the formatting of its result. *)
Definition eval (expression : value) : py string :=
  match expression with
  | VStr source => lift (py_eval source)
  | _ => raise TypeError "eval() arg 1 must be a string, bytes or code object"
  end.

Definition handle_tool_call (message : value) : py unit :=
  params <- get message "params" (VDict []) ;;
  tool_name <- get params "name" VNone ;;
  params' <- get message "params" (VDict []) ;;
  arguments <- get params' "arguments" (VDict []) ;;
  response <-
    (if eq_str tool_name "calculate" then
       try_except
         (expression <- get arguments "expression" (VStr EmptyString) ;;
          result <- eval expression ;;
          id <- getitem message "id" ;;
          ret (text_result id ("Result: " ++ py_str expression ++ " = " ++ result)))
         [ (is_Exception,
            fun e =>
              id <- getitem message "id" ;;
              ret (error_response id (-32000) ("Calculation error: " ++ exn_str e))) ]
     else if eq_str tool_name "reverse_string" then
       text <- get arguments "text" (VStr EmptyString) ;;
       reversed_text <- reversed text ;;
       id <- getitem message "id" ;;
       ret (text_result id
              ("Original: '" ++ py_str text ++ "' -> Reversed: '"
               ++ py_str reversed_text ++ "'"))
     else
       id <- getitem message "id" ;;
       ret (error_response id (-32601) ("Unknown tool: " ++ py_str tool_name))) ;;
  send_response response.

Definition handle_message (line : string) : py unit :=
  try_except
    (message <- lift (json_loads (strip line)) ;;
     method <- get message "method" VNone ;;
     if eq_str method "initialize" then handle_initialize message
     else
       method <- get message "method" VNone ;;
       if eq_str method "tools/list" then handle_tools_list message
       else
         method <- get message "method" VNone ;;
         if eq_str method "tools/call" then handle_tool_call message
         else
           id <- get message "id" VNone ;;
           method <- get message "method" VNone ;;
           send_response
             (error_response id (-32601) ("Method not found: " ++ py_str method)))
    [ (is_JSONDecodeError, fun e => log ("JSON parse error: " ++ exn_str e));
      (is_Exception, fun e => log ("Error handling message: " ++ exn_str e)) ].

(** The body of the message loop: a blank line is skipped. *)
Definition serve (line : string) : py unit :=
  if nonempty (strip line) then handle_message line else ret tt.

(** The message loop over the lines of the input stream.  The signal
    handlers [main] installs act between statements and are not part of
    the embedding. *)
Definition main (stdin : list string) : py unit :=
  log "Starting up..." ;;;
  log "Ready to receive requests!" ;;;
  try_finally
    (try_except
       (for_each stdin serve)
       [ (is_KeyboardInterrupt, fun _ => log "Keyboard interrupt received");
         (is_Exception, fun e => log ("Unexpected error: " ++ exn_str e)) ])
    (log "Shutting down...").

End Server.

(** ** A decoder for [json.loads]

    [json.loads] belongs to Python's library, not to the server.  The
    theorems about all input lines hold for any decoder; the concrete
    scenarios run on the one below, which reads the JSON grammar as
    Python does (white space, the three literals, [NaN] and the
    infinities, numbers, strings with their escapes, arrays, objects
    where a repeated key keeps its first place and its last value).  A
    [\u] escape above [00ff] has no character here and is not read. *)

Definition is_json_space (c : ascii) : bool :=
  let n := N_of_ascii c in ((n =? 32) || (n =? 9) || (n =? 10) || (n =? 13))%N.

Fixpoint skip_ws (s : string) : string :=
  match s with
  | String c s' => if is_json_space c then skip_ws s' else s
  | EmptyString => EmptyString
  end.

Fixpoint strip_prefix (p s : string) : option string :=
  match p, s with
  | EmptyString, _ => Some s
  | String a p', String b s' => if Ascii.eqb a b then strip_prefix p' s' else None
  | String _ _, EmptyString => None
  end.

Definition is_digit (c : ascii) : bool :=
  let n := N_of_ascii c in ((48 <=? n) && (n <=? 57))%N.

Fixpoint take_digits (s : string) : string * string :=
  match s with
  | String c s' =>
      if is_digit c then let (ds, r) := take_digits s' in (String c ds, r)
      else (EmptyString, s)
  | EmptyString => (EmptyString, EmptyString)
  end.

Fixpoint digits_value (acc : Z) (ds : string) : Z :=
  match ds with
  | EmptyString => acc
  | String c ds' => digits_value (10 * acc + Z.of_N (N_of_ascii c - 48)) ds'
  end.

Definition hex_value (c : ascii) : option N :=
  let n := N_of_ascii c in
  if ((48 <=? n) && (n <=? 57))%N then Some (n - 48)%N
  else if ((97 <=? n) && (n <=? 102))%N then Some (n - 87)%N
  else if ((65 <=? n) && (n <=? 70))%N then Some (n - 55)%N
  else None.

Definition hex4 (a b c d : ascii) : option N :=
  match hex_value a, hex_value b, hex_value c, hex_value d with
  | Some x, Some y, Some z, Some w => Some (((x * 16 + y) * 16 + z) * 16 + w)%N
  | _, _, _, _ => None
  end.

Definition unescape (c : ascii) : option ascii :=
  if Ascii.eqb c dquote then Some dquote
  else if Ascii.eqb c "\" then Some "\"%char
  else if Ascii.eqb c "/" then Some "/"%char
  else if Ascii.eqb c "b" then Some "008"%char
  else if Ascii.eqb c "f" then Some "012"%char
  else if Ascii.eqb c "n" then Some "010"%char
  else if Ascii.eqb c "r" then Some "013"%char
  else if Ascii.eqb c "t" then Some "009"%char
  else None.

Definition push_char (c : ascii) (r : option (string * string)) : option (string * string) :=
  match r with
  | Some (t, rest) => Some (String c t, rest)
  | None => None
  end.

(** The text of a string literal, from just after its opening quote. *)
Fixpoint scan_string (s : string) : option (string * string) :=
  match s with
  | EmptyString => None
  | String c s1 =>
      if Ascii.eqb c dquote then Some (EmptyString, s1)
      else if Ascii.eqb c "\" then
        match s1 with
        | EmptyString => None
        | String e s2 =>
            if Ascii.eqb e "u" then
              match s2 with
              | String h1 (String h2 (String h3 (String h4 s3))) =>
                  match hex4 h1 h2 h3 h4 with
                  | Some n =>
                      if (n <? 256)%N then push_char (ascii_of_N n) (scan_string s3)
                      else None
                  | None => None
                  end
              | _ => None
              end
            else
              match unescape e with
              | Some ch => push_char ch (scan_string s2)
              | None => None
              end
        end
      else if (N_of_ascii c <? 32)%N then None
      else push_char c (scan_string s1)
  end.

Section Decoder.

(** The float Python reads from a numeral. *)
Variable float_of_literal : string -> pyfloat.

(** The text of the [JSONDecodeError] raised on a line that is not JSON. *)
Variable decode_error : string -> string.

(** A number: an integer part, then a fraction and an exponent when they
    are complete; either of them makes the number a float. *)
Definition scan_number (s : string) : option (value * string) :=
  let (sign, s0) :=
    match s with
    | String c s' => if Ascii.eqb c "-" then ("-", s') else (EmptyString, s)
    | EmptyString => (EmptyString, s)
    end in
  let (int, s1) :=
    match s0 with
    | String c s' => if Ascii.eqb c "0" then ("0", s') else take_digits s0
    | EmptyString => (EmptyString, s0)
    end in
  if negb (nonempty int) then None else
  let (frac, s2) :=
    match s1 with
    | String c s' =>
        if Ascii.eqb c "." then
          let (ds, r) := take_digits s' in
          if nonempty ds then (String c ds, r) else (EmptyString, s1)
        else (EmptyString, s1)
    | EmptyString => (EmptyString, s1)
    end in
  let (exp, s3) :=
    match s2 with
    | String c s' =>
        if Ascii.eqb c "e" || Ascii.eqb c "E" then
          let (sg, s'') :=
            match s' with
            | String d r =>
                if Ascii.eqb d "+" || Ascii.eqb d "-"
                then (String d EmptyString, r) else (EmptyString, s')
            | EmptyString => (EmptyString, s')
            end in
          let (ds, r) := take_digits s'' in
          if nonempty ds then (String c (sg ++ ds), r) else (EmptyString, s2)
        else (EmptyString, s2)
    | EmptyString => (EmptyString, s2)
    end in
  if nonempty frac || nonempty exp
  then Some (VFloat (float_of_literal (sign ++ int ++ frac ++ exp)), s3)
  else Some (VInt (if nonempty sign then - digits_value 0 int else digits_value 0 int), s3).

Definition scan_literal (s : string) : option (value * string) :=
  match strip_prefix "null" s with Some r => Some (VNone, r) | None =>
  match strip_prefix "true" s with Some r => Some (VBool true, r) | None =>
  match strip_prefix "false" s with Some r => Some (VBool false, r) | None =>
  match scan_number s with Some vr => Some vr | None =>
  match strip_prefix "NaN" s with
  | Some r => Some (VFloat (float_of_literal "NaN"), r) | None =>
  match strip_prefix "Infinity" s with
  | Some r => Some (VFloat (float_of_literal "Infinity"), r) | None =>
  match strip_prefix "-Infinity" s with
  | Some r => Some (VFloat (float_of_literal "-Infinity"), r) | None => None
  end end end end end end end.

(** The members of an object, from its first key on. *)
Fixpoint parse_members (parse : string -> option (value * string))
    (n : nat) (acc : dict) (s : string) : option (value * string) :=
  match n, s with
  | S n', String c s1 =>
      if Ascii.eqb c dquote then
        match scan_string s1 with
        | Some (key, r) =>
            match skip_ws r with
            | String colon r1 =>
                if Ascii.eqb colon ":" then
                  match parse (skip_ws r1) with
                  | Some (v, r2) =>
                      match skip_ws r2 with
                      | String d r3 =>
                          if Ascii.eqb d "," then
                            parse_members parse n' (dict_set key v acc) (skip_ws r3)
                          else if Ascii.eqb d "}" then
                            Some (VDict (dict_set key v acc), r3)
                          else None
                      | EmptyString => None
                      end
                  | None => None
                  end
                else None
            | EmptyString => None
            end
        | None => None
        end
      else None
  | _, _ => None
  end.

(** The items of an array, from its first item on. *)
Fixpoint parse_items (parse : string -> option (value * string))
    (n : nat) (acc : list value) (s : string) : option (value * string) :=
  match n with
  | S n' =>
      match parse s with
      | Some (v, r) =>
          match skip_ws r with
          | String d r1 =>
              if Ascii.eqb d "," then
                parse_items parse n' (acc ++ [v])%list (skip_ws r1)
              else if Ascii.eqb d "]" then Some (VList (acc ++ [v])%list, r1)
              else None
          | EmptyString => None
          end
      | None => None
      end
  | O => None
  end.

Fixpoint parse_value (fuel : nat) (s : string) : option (value * string) :=
  match fuel, s with
  | S fuel', String c s' =>
      if Ascii.eqb c dquote then
        match scan_string s' with
        | Some (t, r) => Some (VStr t, r)
        | None => None
        end
      else if Ascii.eqb c "{" then
        match skip_ws s' with
        | String d r =>
            if Ascii.eqb d "}" then Some (VDict [], r)
            else parse_members (parse_value fuel') (String.length s') [] (String d r)
        | EmptyString => None
        end
      else if Ascii.eqb c "[" then
        match skip_ws s' with
        | String d r =>
            if Ascii.eqb d "]" then Some (VList [], r)
            else parse_items (parse_value fuel') (String.length s') [] (String d r)
        | EmptyString => None
        end
      else scan_literal s
  | _, _ => None
  end.

(** A whole text: one value, with white space around it and nothing
    else.  Every nested value starts at least one character further
    on, so the length of the text is fuel enough. *)
Definition parse_json (s : string) : option value :=
  match parse_value (S (String.length s)) (skip_ws s) with
  | Some (v, r) =>
      match skip_ws r with
      | EmptyString => Some v
      | String _ _ => None
      end
  | None => None
  end.

Definition loads (s : string) : outcome value :=
  match parse_json s with
  | Some v => Returned v
  | None => Raised (mk_exn JSONDecodeError (decode_error s))
  end.

End Decoder.

(** ** Writing JSON texts, and a sample environment

    [quoted] writes a double quote for every backquote, so that a JSON
    text reads as it does on the wire. *)
Fixpoint quoted (s : string) : string :=
  match s with
  | EmptyString => EmptyString
  | String c s' => String (if Ascii.eqb c "`" then dquote else c) (quoted s')
  end.

(** A float shown as it was written, a fixed decoder diagnostic and a
    three-line table for [eval]: enough to run the server on concrete
    lines. *)
Definition sample_float (literal : string) : pyfloat := mk_pyfloat literal literal.

Definition sample_decode_error (s : string) : string := "Expecting value".

Definition sample_eval (source : string) : outcome string :=
  if String.eqb source "2 + 2" then Returned "4"
  else if String.eqb source "exit()" then Raised (mk_exn SystemExit EmptyString)
  else if String.eqb source "1 / 0" then Raised (mk_exn Exception_ "division by zero")
  else Raised (mk_exn Exception_ "invalid syntax (<string>, line 1)").

Definition sample_loads : string -> outcome value :=
  loads sample_float sample_decode_error.

(** ** What is asked of a request *)

Definition method_of (d : dict) : value :=
  match dict_get "method" d with
  | Some m => m
  | None => VNone
  end.

(** The three methods the dispatcher routes to a handler. *)
Definition routed (method : value) : bool :=
  eq_str method "initialize" || eq_str method "tools/list" || eq_str method "tools/call".

Definition is_dict (v : value) : bool :=
  match v with
  | VDict _ => true
  | _ => false
  end.

(** The names in a list of tool descriptors, in order. *)
Definition tool_names (tools : value) : list value :=
  match tools with
  | VList l =>
      flat_map (fun t => match t with
                         | VDict d => match dict_get "name" d with
                                      | Some n => [n]
                                      | None => []
                                      end
                         | _ => []
                         end) l
  | _ => []
  end.

(** The property names that the input schema of the tool [name] declares
    as required, in a list of tool descriptors. *)
Definition required_by (name : string) (tools : value) : list value :=
  match tools with
  | VList l =>
      flat_map
        (fun t =>
           match t with
           | VDict tool =>
               match dict_get "name" tool, dict_get "inputSchema" tool with
               | Some n, Some (VDict schema) =>
                   if eq_str n name then
                     match dict_get "required" schema with
                     | Some (VList required) => required
                     | _ => []
                     end
                   else []
               | _, _ => []
               end
           | _ => []
           end) l
  | _ => []
  end.

(** [params] as the tool-call handler reads it: the empty object when the
    member is absent; nothing when it is there and is not an object. *)
Definition params_of (d : dict) : option dict :=
  match dict_get "params" d with
  | Some (VDict params) => Some params
  | Some _ => None
  | None => Some []
  end.

(** [params.get("name")] *)
Definition tool_of (params : dict) : value :=
  match dict_get "name" params with
  | Some name => name
  | None => VNone
  end.

(** [params.get("arguments", {})] *)
Definition arguments_of (params : dict) : value :=
  match dict_get "arguments" params with
  | Some arguments => arguments
  | None => VDict []
  end.

(** The member [key] of an arguments value, or [default]; nothing when the
    arguments are not an object. *)
Definition argument (arguments : value) (key : string) (default : value) : option value :=
  match arguments with
  | VDict a =>
      match dict_get key a with
      | Some w => Some w
      | None => Some default
      end
  | _ => None
  end.

Section Wellformed.

Variable py_eval : string -> outcome string.

(** The tool calls that are well formed, by the [params] object: the
    name is not that of a tool; or it is [calculate] and the expression,
    when it is a text, evaluates to a result or to an [Exception]; or it
    is [reverse_string] and [arguments] is absent or an object whose
    [text] is absent or a string. *)
Definition well_formed_call (params : dict) : bool :=
  if eq_str (tool_of params) "calculate" then
    match argument (arguments_of params) "expression" (VStr EmptyString) with
    | Some (VStr source) =>
        match py_eval source with
        | Returned _ => true
        | Raised e => is_Exception e
        end
    | _ => true
    end
  else if eq_str (tool_of params) "reverse_string" then
    match argument (arguments_of params) "text" (VStr EmptyString) with
    | Some (VStr _) => true
    | _ => false
    end
  else true.

(** The requests that are well formed: any object whose method is not
    routed; a routed one carries an [id], and a [tools/call] has no
    [params] or an object that is a well formed call. *)
Definition well_formed (d : dict) : bool :=
  if routed (method_of d) then
    match dict_get "id" d with
    | Some _ =>
        if eq_str (method_of d) "tools/call" then
          match params_of d with
          | Some params => well_formed_call params
          | None => false
          end
        else true
    | None => false
    end
  else true.

End Wellformed.

(** ** Shapes of a computation *)

(** A computation that prints nothing. *)
Definition quiet {A : Type} (m : py A) : Prop := fst m = [].

(** A handler either sends one response and returns, or raises before it
    has printed anything. *)
Inductive answer : py unit -> Prop :=
| answer_sent (r : value) : answer ([Stdout (json_dumps r)], Returned tt)
| answer_raised (e : exn) : answer ([], Raised e).

(** One line served: one response, or one diagnostic, or an exception
    outside [Exception] on its way out of the loop. *)
Inductive served : py unit -> Prop :=
| served_answered (r : value) : served ([Stdout (json_dumps r)], Returned tt)
| served_logged (text : string) : served ([Stderr text], Returned tt)
| served_leaving (e : exn) : is_Exception e = false -> served ([], Raised e).

(** No line of the run ends the loop. *)
Definition keeps_running (serve : string -> py unit) (lines : list string) : Prop :=
  Forall (fun line => snd (serve line) = Returned tt) lines.

(** ** Responses *)

(** The id a response is sent under: that of the request, null when the
    request has none. *)
Definition request_id (d : dict) : value :=
  match dict_get "id" d with
  | Some i => i
  | None => VNone
  end.

(** The two envelopes the handlers build under an id: a result, or an
    error with one of the two codes. *)
Inductive reply (id : value) : value -> Prop :=
| reply_result (result : value) :
    reply id (VDict [("jsonrpc", VStr "2.0"); ("id", id); ("result", result)])
| reply_error (code : Z) (message : string) :
    code = (-32601)%Z \/ code = (-32000)%Z ->
    reply id (error_response id code message).

(** A computation that prints nothing and, when it returns, returns a
    value with the property [P]. *)
Definition yields {A : Type} (P : A -> Prop) (m : py A) : Prop :=
  fst m = [] /\ forall a, snd m = Returned a -> P a.

(** [None], a bool or a number: the values with no slice and no [get]. *)
Definition is_scalar (v : value) : bool :=
  match v with
  | VNone | VBool _ | VInt _ | VFloat _ => true
  | _ => false
  end.

Definition is_str (v : value) : bool :=
  match v with
  | VStr _ => true
  | _ => false
  end.



(** A text of printable ASCII characters only: no line break in it. *)
Definition ascii_char (c : ascii) : bool :=
  ((32 <=? N_of_ascii c) && (N_of_ascii c <? 127))%N.

Fixpoint ascii_text (s : string) : bool :=
  match s with
  | EmptyString => true
  | String c s' => ascii_char c && ascii_text s'
  end.

(** The floats inside a value are written by [json.dumps] in ASCII, as
    Python writes every float. *)
Fixpoint ascii_floats (v : value) : bool :=
  match v with
  | VFloat x => ascii_text (float_json x)
  | VList l => forallb ascii_floats l
  | VDict d => forallb (fun kv : string * value => let (_, w) := kv in ascii_floats w) d
  | _ => true
  end.

(** ** The server with what an evaluated expression can reach

    [eval(expression)] in [handle_tool_call] is given no namespace: the
    expression runs in the locals of the handler and in the globals of
    the module.  It can print on either channel, change the request
    object that [message] refers to, change or unbind [TOOLS] and
    [SERVER_INFO], and close the input stream.  The handlers read the id
    of the request after the evaluation, and the registry and the server
    information when they answer.  [Live] is the server with that store
    threaded through it; the definitions above are the server as it is
    when expressions only compute.

    What is not followed here: an evaluation that does not end, or that
    ends the process at once; one that rebinds the functions of the
    server or of the library or [sys.stdout], which replaces the
    program itself; and one that stores, in the request or in a global,
    an object that [json.dumps] cannot write -- the store holds JSON
    values. *)
Module Live.

(** What an expression can change and the server reads afterwards. *)
Record store : Type := mk_store {
  message_now : value;              (* the object [message] refers to *)
  TOOLS_now : option value;         (* the global [TOOLS]; [None] once unbound *)
  SERVER_INFO_now : option value;   (* the global [SERVER_INFO] *)
  stdin_closed : bool;              (* [sys.stdin] has been closed *)
  others : dict                     (* other data left in the module's globals *)
}.

(** The store when [main] starts: the two globals as the module defines
    them.  No request has been decoded yet. *)
Definition initial : store :=
  mk_store VNone (Some TOOLS) (Some SERVER_INFO) false [].

Definition with_message (message : value) (s : store) : store :=
  mk_store message (TOOLS_now s) (SERVER_INFO_now s) (stdin_closed s) (others s).

(** A statement run from a store: the lines it prints, the store it
    leaves, and how it ends.  What was printed and stored before an
    exception stays. *)
Record effect (A : Type) : Type := mk_effect {
  trace : list event;
  after : store;
  ended : outcome A
}.

Arguments mk_effect {A} trace after ended.
Arguments trace {A} e.
Arguments after {A} e.
Arguments ended {A} e.

Definition run (A : Type) : Type := store -> effect A.

Definition ret {A : Type} (a : A) : run A := fun s => mk_effect [] s (Returned a).

Definition raise {A : Type} (c : exn_class) (descr : string) : run A :=
  fun s => mk_effect [] s (Raised (mk_exn c descr)).

(** A statement that does not touch the store. *)
Definition pure {A : Type} (m : py A) : run A := fun s => mk_effect (fst m) s (snd m).

(** What was done, then the rest from the store it left. *)
Definition and_then {A B : Type} (r : effect A) (k : A -> run B) : effect B :=
  match ended r with
  | Returned a =>
      let r' := k a (after r) in
      mk_effect (trace r ++ trace r')%list (after r') (ended r')
  | Raised e => mk_effect (trace r) (after r) (Raised e)
  end.

Definition bind {A B : Type} (m : run A) (k : A -> run B) : run B :=
  fun s => and_then (m s) k.

Declare Scope live_scope.
Delimit Scope live_scope with live.
Notation "x <- m ;; k" := (bind m (fun x => k))
  (at level 100, m at next level, right associativity) : live_scope.
Notation "m ;;; k" := (bind m (fun _ => k))
  (at level 100, right associativity) : live_scope.
Local Open Scope live_scope.

Fixpoint select_clause {A : Type} (clauses : list ((exn -> bool) * (exn -> run A)))
    (e : exn) : option (run A) :=
  match clauses with
  | [] => None
  | (accepts, handler) :: rest =>
      if accepts e then Some (handler e) else select_clause rest e
  end.

(** [try: body / except ...], once the body is done: the handler runs
    from the store the body left. *)
Definition handled {A : Type} (r : effect A)
    (clauses : list ((exn -> bool) * (exn -> run A))) : effect A :=
  match ended r with
  | Returned a => r
  | Raised e =>
      match select_clause clauses e with
      | Some handler =>
          let r' := handler (after r) in
          mk_effect (trace r ++ trace r')%list (after r') (ended r')
      | None => r
      end
  end.

Definition try_except {A : Type} (body : run A)
    (clauses : list ((exn -> bool) * (exn -> run A))) : run A :=
  fun s => handled (body s) clauses.

(** [try: body / finally: final] *)
Definition try_finally {A : Type} (body : run A) (final : run unit) : run A :=
  fun s =>
    let r := body s in
    let r' := final (after r) in
    mk_effect (trace r ++ trace r')%list (after r')
      match ended r' with
      | Returned _ => ended r
      | Raised e => Raised e
      end.

Definition stdout_of {A : Type} (r : effect A) : list string :=
  flat_map (fun ev => match ev with Stdout s => [s] | Stderr _ => [] end) (trace r).

Definition stderr_of {A : Type} (r : effect A) : list string :=
  flat_map (fun ev => match ev with Stderr s => [s] | Stdout _ => [] end) (trace r).

(** The same, after the lines [t]. *)
Definition prefixed {A : Type} (t : list event) (r : effect A) : effect A :=
  mk_effect (t ++ trace r)%list (after r) (ended r).

(** [message = ...] *)
Definition set_message (message : value) : run unit :=
  fun s => mk_effect [] (with_message message s) (Returned tt).

(** [message.get(key, default)] and [message[key]], on the object as it
    is now. *)
Definition message_get (key : string) (default : value) : run value :=
  fun s => pure (get (message_now s) key default) s.

Definition message_getitem (key : string) : run value :=
  fun s => pure (getitem (message_now s) key) s.

(** Reading a global of the module: [NameError], an [Exception], once
    it is unbound. *)
Definition global (binding : store -> option value) (name : string) : run value :=
  fun s =>
    match binding s with
    | Some v => ret v s
    | None => raise Exception_ ("name '" ++ name ++ "' is not defined") s
    end.

Definition log (message : string) : run unit := pure (log message).

Definition send_response (response : value) : run unit := pure (send_response response).

Definition handle_initialize : run unit :=
  id <- message_getitem "id" ;;
  server_info <- global SERVER_INFO_now "SERVER_INFO" ;;
  send_response
    (VDict
       [ ("jsonrpc", VStr "2.0");
         ("id", id);
         ("result",
          VDict
            [ ("protocolVersion", VStr "2024-11-05");
              ("capabilities", VDict [("tools", VDict [])]);
              ("serverInfo", server_info) ]) ]).

Definition handle_tools_list : run unit :=
  id <- message_getitem "id" ;;
  tools <- global TOOLS_now "TOOLS" ;;
  send_response
    (VDict
       [ ("jsonrpc", VStr "2.0");
         ("id", id);
         ("result", VDict [("tools", tools)]) ]).

(** What one evaluation does: what it prints, the store it leaves, and
    the text an f-string shows for its result, or the exception. *)
Record evaluation : Type := mk_evaluation {
  printed : list event;
  store_after : store;
  result : outcome string
}.

Section Server.

Variable json_loads : string -> outcome value.

(** [eval] on a source text, run from a store. *)
Variable py_eval : string -> store -> evaluation.

Definition eval (expression : value) : run string :=
  match expression with
  | VStr source =>
      fun s =>
        let ev := py_eval source s in
        mk_effect (printed ev) (store_after ev) (result ev)
  | _ => raise TypeError "eval() arg 1 must be a string, bytes or code object"
  end.

Definition handle_tool_call : run unit :=
  params <- message_get "params" (VDict []) ;;
  tool_name <- pure (get params "name" VNone) ;;
  params' <- message_get "params" (VDict []) ;;
  arguments <- pure (get params' "arguments" (VDict [])) ;;
  response <-
    (if eq_str tool_name "calculate" then
       try_except
         (expression <- pure (get arguments "expression" (VStr EmptyString)) ;;
          result <- eval expression ;;
          id <- message_getitem "id" ;;
          ret (text_result id ("Result: " ++ py_str expression ++ " = " ++ result)))
         [ (is_Exception,
            fun e =>
              id <- message_getitem "id" ;;
              ret (error_response id (-32000) ("Calculation error: " ++ exn_str e))) ]
     else if eq_str tool_name "reverse_string" then
       text <- pure (get arguments "text" (VStr EmptyString)) ;;
       reversed_text <- pure (reversed text) ;;
       id <- message_getitem "id" ;;
       ret (text_result id
              ("Original: '" ++ py_str text ++ "' -> Reversed: '"
               ++ py_str reversed_text ++ "'"))
     else
       id <- message_getitem "id" ;;
       ret (error_response id (-32601) ("Unknown tool: " ++ py_str tool_name))) ;;
  send_response response.

Definition handle_message (line : string) : run unit :=
  try_except
    (decoded <- pure (lift (json_loads (strip line))) ;;
     set_message decoded ;;;
     method <- message_get "method" VNone ;;
     if eq_str method "initialize" then handle_initialize
     else
       method <- message_get "method" VNone ;;
       if eq_str method "tools/list" then handle_tools_list
       else
         method <- message_get "method" VNone ;;
         if eq_str method "tools/call" then handle_tool_call
         else
           id <- message_get "id" VNone ;;
           method <- message_get "method" VNone ;;
           send_response
             (error_response id (-32601) ("Method not found: " ++ py_str method)))
    [ (is_JSONDecodeError, fun e => log ("JSON parse error: " ++ exn_str e));
      (is_Exception, fun e => log ("Error handling message: " ++ exn_str e)) ].

Definition serve (line : string) : run unit :=
  if nonempty (strip line) then handle_message line else ret tt.

(** One step of the iteration over [sys.stdin]: the next line, or the
    exception the read raises (bytes that do not decode, a signal
    handler that exits). *)
Inductive read : Type :=
| Line (text : string)
| Failed (e : exn).

(** [for line in sys.stdin: ...]: every step, the last one included,
    first finds the stream open or raises [ValueError], an [Exception].
    [stdin] is what the iteration reads, step by step: a line that an
    expression read itself never reaches the loop and is not in it. *)
Fixpoint for_stdin (stdin : list read) (body : string -> run unit) : run unit :=
  fun s =>
    if stdin_closed s then raise Exception_ "I/O operation on closed file." s
    else
      match stdin with
      | [] => ret tt s
      | Line line :: rest => bind (body line) (fun _ => for_stdin rest body) s
      | Failed e :: _ => mk_effect [] s (Raised e)
      end.

Definition main (stdin : list read) : run unit :=
  log "Starting up..." ;;;
  log "Ready to receive requests!" ;;;
  try_finally
    (try_except
       (for_stdin stdin serve)
       [ (is_KeyboardInterrupt, fun _ => log "Keyboard interrupt received");
         (is_Exception, fun e => log ("Unexpected error: " ++ exn_str e)) ])
    (log "Shutting down...").

End Server.

(** An expression that only computes: it prints nothing and leaves the
    store as it found it. *)
Definition only_computes (py_eval : string -> outcome string) :
    string -> store -> evaluation :=
  fun source s => mk_evaluation [] s (py_eval source).

Fixpoint dict_remove (key : string) (d : dict) : dict :=
  match d with
  | [] => []
  | (k, v) :: d' =>
      if String.eqb k key then dict_remove key d' else (k, v) :: dict_remove key d'
  end.

(** A table for [eval] with three expressions that do more than
    compute, as Python runs them in the handler: [TOOLS.clear()] empties
    the registry and is [None]; [print('hi')] writes a line on stdout
    and is [None]; [message.pop('id')] takes the id out of the request
    and is that id.  Any other expression is looked up in the table
    above. *)
Definition sample_eval (source : string) (s : store) : evaluation :=
  if String.eqb source "TOOLS.clear()" then
    match TOOLS_now s with
    | Some (VList _) =>
        mk_evaluation []
          (mk_store (message_now s) (Some (VList [])) (SERVER_INFO_now s)
             (stdin_closed s) (others s))
          (Returned "None")
    | Some (VDict _) =>
        mk_evaluation []
          (mk_store (message_now s) (Some (VDict [])) (SERVER_INFO_now s)
             (stdin_closed s) (others s))
          (Returned "None")
    | Some v =>
        mk_evaluation [] s
          (Raised (mk_exn AttributeError
                     ("'" ++ type_name v ++ "' object has no attribute 'clear'")))
    | None => mk_evaluation [] s (Raised (mk_exn Exception_ "name 'TOOLS' is not defined"))
    end
  else if String.eqb source "print('hi')" then
    mk_evaluation [Stdout "hi"] s (Returned "None")
  else if String.eqb source "message.pop('id')" then
    match message_now s with
    | VDict d =>
        match dict_get "id" d with
        | Some i =>
            mk_evaluation [] (with_message (VDict (dict_remove "id" d)) s)
              (Returned (py_str i))
        | None => mk_evaluation [] s (Raised (mk_exn KeyError "'id'"))
        end
    | _ => only_computes sample_eval source s
    end
  else only_computes sample_eval source s.

(** The text a tool call makes the server evaluate, if it does: the
    [expression] of a [calculate] call, the empty text when there is
    none. *)
Definition call_expression (d : dict) : option string :=
  match params_of d with
  | Some params =>
      if eq_str (tool_of params) "calculate" then
        match argument (arguments_of params) "expression" (VStr EmptyString) with
        | Some (VStr source) => Some source
        | _ => None
        end
      else None
  | None => None
  end.

Definition expression_of (d : dict) : option string :=
  if eq_str (method_of d) "tools/call" then call_expression d else None.

Definition bound (binding : option value) : bool :=
  match binding with
  | Some _ => true
  | None => false
  end.

(** The requests that evaluate nothing and are well formed, in a store:
    any object whose method is not routed; a routed one carries an [id];
    [initialize] and [tools/list] find their global bound; a
    [tools/call] has no [params] or an object, and names no tool, or
    [calculate] with something that is not a text to evaluate, or
    [reverse_string] with a text. *)
Definition well_formed (s : store) (d : dict) : bool :=
  if routed (method_of d) then
    match dict_get "id" d with
    | Some _ =>
        if eq_str (method_of d) "initialize" then bound (SERVER_INFO_now s)
        else if eq_str (method_of d) "tools/list" then bound (TOOLS_now s)
        else
          match params_of d with
          | Some params =>
              if eq_str (tool_of params) "calculate" then
                match argument (arguments_of params) "expression" (VStr EmptyString) with
                | Some (VStr _) => false
                | _ => true
                end
              else if eq_str (tool_of params) "reverse_string" then
                match argument (arguments_of params) "text" (VStr EmptyString) with
                | Some (VStr _) => true
                | _ => false
                end
              else true
          | None => false
          end
    | None => false
    end
  else true.

(** The id of the request as it is after an evaluation. *)
Definition id_after (ev : evaluation) : outcome value :=
  snd (getitem (message_now (store_after ev)) "id").

(** One line served, after what an evaluation printed: one response,
    which is a result or an error under some id, or one diagnostic, or
    an exception outside [Exception] on its way out of the loop. *)
Inductive served (printed : list event) : effect unit -> Prop :=
| served_answered (i r : value) (s : store) :
    reply i r ->
    served printed
      (mk_effect (printed ++ [Stdout (json_dumps r)])%list s (Returned tt))
| served_logged (text : string) (s : store) :
    served printed
      (mk_effect (printed ++ [Stderr ("[Python Server] " ++ text)])%list s (Returned tt))
| served_leaving (e : exn) (s : store) :
    is_Exception e = false -> served printed (mk_effect printed s (Raised e)).

(** The lines of a trace that are on stdout. *)
Definition on_stdout (t : list event) : list string :=
  flat_map (fun ev => match ev with Stdout x => [x] | Stderr _ => [] end) t.

End Live.

(** * Properties *)

(** ** The effect monad *)

Lemma bind_ret {A B : Type} (a : A) (k : A -> py B) : bind (ret a) k = k a.
Proof. unfold bind, ret. destruct (k a). reflexivity. Qed.

Lemma bind_raised {A B : Type} (e : exn) (k : A -> py B) :
  bind ([], Raised e) k = ([], Raised e).
Proof. reflexivity. Qed.

Lemma quiet_ret {A : Type} (a : A) : quiet (ret a).
Proof. reflexivity. Qed.

Lemma quiet_raise {A : Type} (c : exn_class) (s : string) : quiet (@raise A c s).
Proof. reflexivity. Qed.

Lemma quiet_lift {A : Type} (o : outcome A) : quiet (lift o).
Proof. reflexivity. Qed.

Lemma quiet_bind {A B : Type} (m : py A) (k : A -> py B) :
  quiet m -> (forall a, quiet (k a)) -> quiet (bind m k).
Proof.
  unfold quiet. destruct m as [t [a|e]]; simpl; intros -> Hk; [|reflexivity].
  specialize (Hk a). destruct (k a); simpl in *. assumption.
Qed.

Lemma quiet_try_except {A : Type} (body : py A)
    (clauses : list ((exn -> bool) * (exn -> py A))) :
  quiet body ->
  (forall accepts handler e, In (accepts, handler) clauses -> quiet (handler e)) ->
  quiet (try_except body clauses).
Proof.
  unfold quiet. destruct body as [t [a|e]]; simpl; intros -> Hh; [reflexivity|].
  destruct (select_clause clauses e) as [[t' r]|] eqn:Hs; [|reflexivity].
  simpl. induction clauses as [|[accepts handler] rest IH]; simpl in Hs; [discriminate|].
  destruct (accepts e).
  - injection Hs as Hs. specialize (Hh accepts handler e (or_introl eq_refl)).
    rewrite Hs in Hh. exact Hh.
  - apply IH; [|exact Hs].
    intros accepts' handler' e' Hin. apply (Hh accepts' handler' e'). right. exact Hin.
Qed.

Lemma quiet_get (v : value) (key : string) (default : value) : quiet (get v key default).
Proof. destruct v; simpl; try reflexivity. destruct (dict_get key members); reflexivity. Qed.

Lemma quiet_getitem (v : value) (key : string) : quiet (getitem v key).
Proof. destruct v; simpl; try reflexivity. destruct (dict_get key members); reflexivity. Qed.

Lemma quiet_reversed (v : value) : quiet (reversed v).
Proof. destruct v; reflexivity. Qed.

Lemma quiet_eval (py_eval : string -> outcome string) (v : value) : quiet (eval py_eval v).
Proof. destruct v; reflexivity. Qed.

Create HintDb py.
#[local] Hint Resolve quiet_ret quiet_raise quiet_lift quiet_get quiet_getitem
  quiet_reversed quiet_eval : py.

Ltac quiet_steps :=
  repeat first
    [ apply quiet_bind; [solve [auto with py]|intro]
    | solve [auto with py]
    | apply quiet_try_except; [|intros ? ? ? [Hin|[]]; injection Hin as <- <-]
    | match goal with |- quiet (if ?b then _ else _) => destruct b end ].

Lemma answer_send (r : value) : answer (send_response r).
Proof. constructor. Qed.

Lemma answer_bind {A : Type} (m : py A) (k : A -> py unit) :
  quiet m -> (forall a, answer (k a)) -> answer (bind m k).
Proof.
  unfold quiet. destruct m as [t [a|e]]; simpl; intros -> Hk; [|constructor].
  destruct (Hk a); constructor.
Qed.

Lemma stdout_of_bind {A B : Type} (m : py A) (k : A -> py B) :
  stdout_of (bind m k) =
  (stdout_of m ++ match snd m with
                  | Returned a => stdout_of (k a)
                  | Raised _ => []
                  end)%list.
Proof.
  unfold stdout_of. destruct m as [t [a|e]]; simpl.
  - destruct (k a) as [t' r]. simpl. apply flat_map_app.
  - symmetry. apply app_nil_r.
Qed.

Lemma stdout_of_log {A : Type} (text : string) (k : unit -> py A) :
  stdout_of (bind (log text) k) = stdout_of (k tt).
Proof. rewrite stdout_of_bind. reflexivity. Qed.

(** ** Handlers and the loop *)

Lemma routed_false (m : value) :
  routed m = false ->
  eq_str m "initialize" = false /\ eq_str m "tools/list" = false
  /\ eq_str m "tools/call" = false.
Proof.
  unfold routed. intros H.
  apply orb_false_elim in H as [H H3]. apply orb_false_elim in H as [H1 H2]. auto.
Qed.

Lemma get_dict (d : dict) (key : string) (default : value) :
  get (VDict d) key default =
  ret (match dict_get key d with Some w => w | None => default end).
Proof. simpl. destruct (dict_get key d); reflexivity. Qed.

Lemma get_method (d : dict) : get (VDict d) "method" VNone = ret (method_of d).
Proof. apply get_dict. Qed.

Lemma getitem_present (d : dict) (key : string) (w : value) :
  dict_get key d = Some w -> getitem (VDict d) key = ret w.
Proof. intros H. simpl. rewrite H. reflexivity. Qed.

Lemma getitem_absent (d : dict) (key : string) :
  dict_get key d = None -> getitem (VDict d) key = raise KeyError (str_repr key).
Proof. intros H. simpl. rewrite H. reflexivity. Qed.

Lemma get_not_dict (v : value) (key : string) (default : value) :
  is_dict v = false ->
  get v key default =
  raise AttributeError ("'" ++ type_name v ++ "' object has no attribute 'get'").
Proof. destruct v; simpl; intros H; try reflexivity. discriminate. Qed.

Lemma answer_initialize (message : value) : answer (handle_initialize message).
Proof. apply answer_bind; [auto with py|intro; apply answer_send]. Qed.

Lemma answer_tools_list (message : value) : answer (handle_tools_list message).
Proof. apply answer_bind; [auto with py|intro; apply answer_send]. Qed.

Section Loop.

Variable json_loads : string -> outcome value.
Variable py_eval : string -> outcome string.

Lemma answer_tool_call (message : value) : answer (handle_tool_call py_eval message).
Proof.
  unfold handle_tool_call.
  do 4 (apply answer_bind; [auto with py|intro]).
  apply answer_bind; [quiet_steps|intro; apply answer_send].
Qed.

(** Every line is served in one of three ways. *)
Lemma handle_message_served (line : string) :
  served (handle_message json_loads py_eval line).
Proof.
  unfold handle_message.
  match goal with |- served (try_except ?body _) => assert (Hb : answer body) end.
  { apply answer_bind; [auto with py|intro message].
    apply answer_bind; [auto with py|intro m1].
    destruct (eq_str m1 "initialize"); [apply answer_initialize|].
    apply answer_bind; [auto with py|intro m2].
    destruct (eq_str m2 "tools/list"); [apply answer_tools_list|].
    apply answer_bind; [auto with py|intro m3].
    destruct (eq_str m3 "tools/call"); [apply answer_tool_call|].
    do 2 (apply answer_bind; [auto with py|intro]). apply answer_send. }
  destruct Hb as [r|e]; simpl; [constructor|].
  destruct (is_JSONDecodeError e); [constructor|].
  destruct (is_Exception e) eqn:He; constructor. exact He.
Qed.

Lemma serve_served (line : string) : served (serve json_loads py_eval line) \/
                                     serve json_loads py_eval line = ret tt.
Proof.
  unfold serve. destruct (nonempty (strip line)); [left|right; reflexivity].
  apply handle_message_served.
Qed.

(** The start-up and shut-down diagnostics go to the other channel: the
    output stream carries what the loop body wrote. *)
Lemma main_stdout (stdin : list string) :
  stdout_of (main json_loads py_eval stdin) =
  stdout_of (for_each stdin (serve json_loads py_eval)).
Proof.
  unfold main. rewrite !stdout_of_log.
  destruct (for_each stdin (serve json_loads py_eval)) as [t [[]|e]]; simpl.
  - unfold stdout_of. simpl. rewrite flat_map_app. simpl. apply app_nil_r.
  - destruct (is_KeyboardInterrupt e); [|destruct (is_Exception e)];
      unfold stdout_of; simpl; rewrite ?flat_map_app; simpl; rewrite ?app_nil_r;
      reflexivity.
Qed.

Lemma for_each_cons (line : string) (rest : list string) :
  snd (serve json_loads py_eval line) = Returned tt ->
  stdout_of (for_each (line :: rest) (serve json_loads py_eval)) =
  (stdout_of (serve json_loads py_eval line)
   ++ stdout_of (for_each rest (serve json_loads py_eval)))%list.
Proof.
  intros H. simpl. rewrite stdout_of_bind, H. reflexivity.
Qed.

Lemma for_each_app (before after : list string) :
  keeps_running (serve json_loads py_eval) before ->
  stdout_of (for_each (before ++ after) (serve json_loads py_eval)) =
  (stdout_of (for_each before (serve json_loads py_eval))
   ++ stdout_of (for_each after (serve json_loads py_eval)))%list.
Proof.
  induction 1 as [|line before Hline Hrest IH]; [reflexivity|].
  rewrite <- app_comm_cons, !for_each_cons, IH by exact Hline.
  apply app_assoc.
Qed.

(** A line that was served and returned leaves the rest of the run as it
    would have been without it. *)
Lemma main_cons (line : string) (rest : list string) :
  snd (serve json_loads py_eval line) = Returned tt ->
  stdout_of (main json_loads py_eval (line :: rest)) =
  (stdout_of (serve json_loads py_eval line)
   ++ stdout_of (main json_loads py_eval rest))%list.
Proof.
  intros H. rewrite !main_stdout. apply for_each_cons. exact H.
Qed.

Lemma main_app (before after : list string) :
  keeps_running (serve json_loads py_eval) before ->
  stdout_of (main json_loads py_eval (before ++ after)) =
  (stdout_of (main json_loads py_eval before)
   ++ stdout_of (for_each after (serve json_loads py_eval)))%list.
Proof.
  intros H. rewrite !main_stdout. apply for_each_app. exact H.
Qed.

End Loop.

(** ** What each handler answers *)

Lemma try_except_returned {A : Type} (t : list event) (a : A)
    (clauses : list ((exn -> bool) * (exn -> py A))) :
  try_except (t, Returned a) clauses = (t, Returned a).
Proof. reflexivity. Qed.

Lemma try_except_raised {A : Type} (e : exn) (accepts : exn -> bool)
    (handler : exn -> py A) (rest : list ((exn -> bool) * (exn -> py A))) :
  try_except ([], Raised e) ((accepts, handler) :: rest) =
  if accepts e then handler e else try_except ([], Raised e) rest.
Proof.
  unfold try_except. simpl. destruct (accepts e); [|reflexivity].
  destruct (handler e). reflexivity.
Qed.

Lemma try_except_uncaught {A : Type} (e : exn) :
  @try_except A ([], Raised e) [] = ([], Raised e).
Proof. reflexivity. Qed.

Lemma handle_initialize_id (d : dict) (i : value) :
  dict_get "id" d = Some i ->
  handle_initialize (VDict d) =
  send_response
    (VDict
       [ ("jsonrpc", VStr "2.0");
         ("id", i);
         ("result",
          VDict
            [ ("protocolVersion", VStr "2024-11-05");
              ("capabilities", VDict [("tools", VDict [])]);
              ("serverInfo", SERVER_INFO) ]) ]).
Proof.
  intros H. unfold handle_initialize. rewrite (getitem_present _ _ _ H), bind_ret.
  reflexivity.
Qed.

Lemma handle_tools_list_id (d : dict) (i : value) :
  dict_get "id" d = Some i ->
  handle_tools_list (VDict d) =
  send_response
    (VDict [("jsonrpc", VStr "2.0"); ("id", i); ("result", VDict [("tools", TOOLS)])]).
Proof.
  intros H. unfold handle_tools_list. rewrite (getitem_present _ _ _ H), bind_ret.
  reflexivity.
Qed.

Lemma eq_str_true (v : value) (s : string) : eq_str v s = true <-> v = VStr s.
Proof.
  destruct v; simpl; split; try discriminate.
  - intros H. apply String.eqb_eq in H. congruence.
  - intros H. injection H as ->. apply String.eqb_refl.
Qed.

Ltac run := repeat (first [rewrite bind_ret | rewrite get_method | rewrite get_dict]; cbv beta).

Section Responses.
Variable json_loads : string -> outcome value.
Variable py_eval : string -> outcome string.

Lemma dispatch (line : string) (d : dict) :
  json_loads (strip line) = Returned (VDict d) ->
  handle_message json_loads py_eval line =
  try_except
    (if eq_str (method_of d) "initialize" then handle_initialize (VDict d)
     else if eq_str (method_of d) "tools/list" then handle_tools_list (VDict d)
     else if eq_str (method_of d) "tools/call" then handle_tool_call py_eval (VDict d)
     else
       send_response
         (error_response
            (match dict_get "id" d with Some i => i | None => VNone end)
            (-32601) ("Method not found: " ++ py_str (method_of d))))
    [ (is_JSONDecodeError, fun e => log ("JSON parse error: " ++ exn_str e));
      (is_Exception, fun e => log ("Error handling message: " ++ exn_str e)) ].
Proof.
  intros H. unfold handle_message. rewrite H.
  change (lift (Returned (VDict d))) with (ret (VDict d)).
  run. destruct (eq_str (method_of d) "initialize"); [reflexivity|].
  run. destruct (eq_str (method_of d) "tools/list"); [reflexivity|].
  run. destruct (eq_str (method_of d) "tools/call"); [reflexivity|].
  run. reflexivity.
Qed.

Lemma tool_call_body (d params : dict) :
  params_of d = Some params ->
  handle_tool_call py_eval (VDict d) =
  (response <-
     (if eq_str (tool_of params) "calculate" then
        try_except
          (expression <- get (arguments_of params) "expression" (VStr EmptyString) ;;
           result <- eval py_eval expression ;;
           id <- getitem (VDict d) "id" ;;
           ret (text_result id ("Result: " ++ py_str expression ++ " = " ++ result)))
          [ (is_Exception,
             fun e =>
               id <- getitem (VDict d) "id" ;;
               ret (error_response id (-32000) ("Calculation error: " ++ exn_str e))) ]
      else if eq_str (tool_of params) "reverse_string" then
        text <- get (arguments_of params) "text" (VStr EmptyString) ;;
        reversed_text <- reversed text ;;
        id <- getitem (VDict d) "id" ;;
        ret (text_result id
               ("Original: '" ++ py_str text ++ "' -> Reversed: '"
                ++ py_str reversed_text ++ "'"))
      else
        id <- getitem (VDict d) "id" ;;
        ret (error_response id (-32601) ("Unknown tool: " ++ py_str (tool_of params)))) ;;
   send_response response).
Proof.
  intros H. unfold handle_tool_call.
  assert (Hp : get (VDict d) "params" (VDict []) = ret (VDict params)).
  { rewrite get_dict. unfold params_of in H.
    destruct (dict_get "params" d) as [[]|]; try discriminate; congruence. }
  rewrite !Hp. run. reflexivity.
Qed.

Lemma get_argument (arguments : value) (key : string) (default : value) :
  get arguments key default =
  match argument arguments key default with
  | Some w => ret w
  | None =>
      raise AttributeError
        ("'" ++ type_name arguments ++ "' object has no attribute 'get'")
  end.
Proof.
  destruct arguments; try reflexivity. simpl. destruct (dict_get key members); reflexivity.
Qed.

Lemma unknown_tool_response (d params : dict) (i : value) :
  params_of d = Some params ->
  dict_get "id" d = Some i ->
  eq_str (tool_of params) "calculate" = false ->
  eq_str (tool_of params) "reverse_string" = false ->
  handle_tool_call py_eval (VDict d) =
  send_response
    (error_response i (-32601) ("Unknown tool: " ++ py_str (tool_of params))).
Proof.
  intros Hp Hi H1 H2. rewrite (tool_call_body _ _ Hp), H1, H2.
  rewrite (getitem_present _ _ _ Hi). run. reflexivity.
Qed.

Lemma reverse_string_response (d params : dict) (i : value) (s : string) :
  params_of d = Some params ->
  dict_get "id" d = Some i ->
  tool_of params = VStr "reverse_string" ->
  argument (arguments_of params) "text" (VStr EmptyString) = Some (VStr s) ->
  handle_tool_call py_eval (VDict d) =
  send_response
    (text_result i ("Original: '" ++ s ++ "' -> Reversed: '" ++ str_rev s ++ "'")).
Proof.
  intros Hp Hi Ht Ha. rewrite (tool_call_body _ _ Hp), Ht. simpl eq_str. cbv iota.
  rewrite get_argument, Ha. run. simpl reversed. run.
  rewrite (getitem_present _ _ _ Hi). run. reflexivity.
Qed.


Lemma calculate_fault (d params : dict) (i : value) (source : string) (e : exn) :
  params_of d = Some params ->
  dict_get "id" d = Some i ->
  tool_of params = VStr "calculate" ->
  argument (arguments_of params) "expression" (VStr EmptyString) = Some (VStr source) ->
  py_eval source = Raised e ->
  is_Exception e = true ->
  handle_tool_call py_eval (VDict d) =
  send_response (error_response i (-32000) ("Calculation error: " ++ exn_str e)).
Proof.
  intros Hp Hi Ht Ha He Hc. rewrite (tool_call_body _ _ Hp), Ht. simpl eq_str. cbv iota.
  rewrite get_argument, Ha. run. simpl eval. rewrite He.
  unfold lift. rewrite bind_raised, try_except_raised, Hc; cbv beta.
  rewrite (getitem_present _ _ _ Hi). run. reflexivity.
Qed.


Lemma calculate_bad_expression (d params : dict) (i v : value) :
  params_of d = Some params ->
  dict_get "id" d = Some i ->
  tool_of params = VStr "calculate" ->
  argument (arguments_of params) "expression" (VStr EmptyString) = Some v ->
  eq_str v (py_str v) = false ->
  handle_tool_call py_eval (VDict d) =
  send_response
    (error_response i (-32000)
       "Calculation error: eval() arg 1 must be a string, bytes or code object").
Proof.
  intros Hp Hi Ht Ha Hv. rewrite (tool_call_body _ _ Hp), Ht. simpl eq_str. cbv iota.
  rewrite get_argument, Ha. run.
  destruct v; try (simpl in Hv; rewrite String.eqb_refl in Hv; discriminate);
    simpl eval; unfold raise; rewrite bind_raised, try_except_raised;
    change (is_Exception _) with true; cbv iota beta;
    rewrite (getitem_present _ _ _ Hi); run; reflexivity.
Qed.

Lemma calculate_bad_arguments (d params : dict) (i : value) :
  params_of d = Some params ->
  dict_get "id" d = Some i ->
  tool_of params = VStr "calculate" ->
  argument (arguments_of params) "expression" (VStr EmptyString) = None ->
  handle_tool_call py_eval (VDict d) =
  send_response
    (error_response i (-32000)
       ("Calculation error: '" ++ type_name (arguments_of params)
        ++ "' object has no attribute 'get'")).
Proof.
  intros Hp Hi Ht Ha. rewrite (tool_call_body _ _ Hp), Ht. simpl eq_str. cbv iota.
  rewrite get_argument, Ha. unfold raise. rewrite bind_raised, try_except_raised.
  change (is_Exception _) with true. cbv iota beta.
  rewrite (getitem_present _ _ _ Hi). run. reflexivity.
Qed.

End Responses.

(** ** Which requests are answered *)

Lemma method_named (d : dict) (name : string) :
  dict_get "method" d = Some (VStr name) -> method_of d = VStr name.
Proof. unfold method_of. intros ->. reflexivity. Qed.

Lemma eq_str_other (v : value) (s : string) : v <> VStr s -> eq_str v s = false.
Proof.
  intros H. destruct (eq_str v s) eqn:E; [|reflexivity].
  apply eq_str_true in E. contradiction.
Qed.

Section Requests.
Variable json_loads : string -> outcome value.
Variable py_eval : string -> outcome string.



Lemma undecodable_logged (line : string) (e : exn) :
  json_loads (strip line) = Raised e ->
  is_JSONDecodeError e = true ->
  handle_message json_loads py_eval line =
  ([Stderr ("[Python Server] JSON parse error: " ++ exn_str e)], Returned tt).
Proof.
  intros Hl He. unfold handle_message. rewrite Hl. unfold lift.
  rewrite bind_raised, try_except_raised, He. reflexivity.
Qed.

Lemma not_object_logged (line : string) (v : value) :
  json_loads (strip line) = Returned v ->
  is_dict v = false ->
  handle_message json_loads py_eval line =
  ([Stderr ("[Python Server] Error handling message: '" ++ type_name v
            ++ "' object has no attribute 'get'")],
   Returned tt).
Proof.
  intros Hl Hv. unfold handle_message. rewrite Hl.
  change (lift (Returned v)) with (ret v). rewrite bind_ret. cbv beta.
  rewrite (get_not_dict _ _ _ Hv). unfold raise.
  rewrite bind_raised, !try_except_raised. reflexivity.
Qed.

(** A line whose handling printed no response and returned is as good as
    absent from the run. *)
Lemma silent_line_skipped (line : string) (rest : list string) :
  stdout_of (handle_message json_loads py_eval line) = [] ->
  snd (handle_message json_loads py_eval line) = Returned tt ->
  stdout_of (main json_loads py_eval (line :: rest)) =
  stdout_of (main json_loads py_eval rest).
Proof.
  intros Hout Hret.
  assert (Hs : stdout_of (serve json_loads py_eval line) = []
               /\ snd (serve json_loads py_eval line) = Returned tt).
  { unfold serve. destruct (nonempty (strip line)); [auto|split; reflexivity]. }
  destruct Hs as [Hs1 Hs2]. rewrite (main_cons _ _ _ _ Hs2), Hs1. reflexivity.
Qed.

Lemma served_at_most_one (m : py unit) : served m -> (List.length (stdout_of m) <= 1)%nat.
Proof. destruct 1; unfold stdout_of; simpl; lia. Qed.

(** The branch of [calculate] answers its own faults, under any decoder:
    an [Exception] raised by the evaluation comes back as the error
    -32000 with the text of the exception. *)
Lemma calculate_fault_answered (line : string) (d params : dict) (i : value)
    (source : string) (e : exn) :
  json_loads (strip line) = Returned (VDict d) ->
  dict_get "method" d = Some (VStr "tools/call") ->
  dict_get "id" d = Some i ->
  params_of d = Some params ->
  tool_of params = VStr "calculate" ->
  argument (arguments_of params) "expression" (VStr EmptyString) = Some (VStr source) ->
  py_eval source = Raised e ->
  is_Exception e = true ->
  handle_message json_loads py_eval line =
  ([Stdout
      (json_dumps (error_response i (-32000) ("Calculation error: " ++ exn_str e)))],
   Returned tt).
Proof.
  intros Hl Hm Hi Hp Ht Ha He Hc.
  rewrite (dispatch _ _ _ _ Hl), (method_named _ _ Hm). simpl eq_str. cbv iota.
  rewrite (calculate_fault py_eval _ _ _ _ _ Hp Hi Ht Ha He Hc). reflexivity.
Qed.

(** [initialize] and [tools/list] subscript the message for its id: with
    no id the [KeyError] is logged and nothing is answered. *)
Lemma handler_without_id_logged (line : string) (d : dict) :
  json_loads (strip line) = Returned (VDict d) ->
  dict_get "id" d = None ->
  eq_str (method_of d) "initialize" || eq_str (method_of d) "tools/list" = true ->
  handle_message json_loads py_eval line =
  ([Stderr "[Python Server] Error handling message: 'id'"], Returned tt).
Proof.
  intros Hl Hi Hm. rewrite (dispatch _ _ _ _ Hl).
  destruct (eq_str (method_of d) "initialize").
  - unfold handle_initialize. rewrite (getitem_absent _ _ Hi). reflexivity.
  - simpl in Hm. rewrite Hm. unfold handle_tools_list.
    rewrite (getitem_absent _ _ Hi). reflexivity.
Qed.

End Requests.

(** * The claims

    On the server whose expressions only compute; the two claims that
    speak of every line of a run are settled with [Live] in the last
    part. *)


(** C3.  A request whose method is absent, or is none of the routed
    methods, is answered by an error with code -32601; its message is
    ["Method not found: "] followed by the method as Python prints it
    ([None] when there is none), and its id is the request's id, or null
    when the request has none. *)
Theorem unknown_method_error
    (json_loads : string -> outcome value) (py_eval : string -> outcome string)
    (line : string) (d : dict) :
  json_loads (strip line) = Returned (VDict d) ->
  routed (method_of d) = false ->
  handle_message json_loads py_eval line =
  ([Stdout
      (json_dumps
         (error_response
            (match dict_get "id" d with Some i => i | None => VNone end)
            (-32601)
            ("Method not found: " ++ py_str (method_of d))))],
   Returned tt).
Proof.
  intros Hl Hr. rewrite (dispatch _ _ _ _ Hl).
  apply routed_false in Hr as (-> & -> & ->). reflexivity.
Qed.

Lemma unknown_method_error_witness :
  sample_loads (strip (quoted "{`jsonrpc`:`2.0`,`method`:`ping`}")) =
    Returned (VDict [("jsonrpc", VStr "2.0"); ("method", VStr "ping")])
  /\ routed (method_of [("jsonrpc", VStr "2.0"); ("method", VStr "ping")]) = false
  /\ handle_message sample_loads sample_eval (quoted "{`jsonrpc`:`2.0`,`method`:`ping`}") =
     ([Stdout
         (quoted "{`jsonrpc`: `2.0`, `id`: null, `error`: {`code`: -32601, `message`: `Method not found: ping`}}")],
      Returned tt).
Proof.
  split; [reflexivity|]. split; [reflexivity|].
  apply (unknown_method_error sample_loads sample_eval
           (quoted "{`jsonrpc`:`2.0`,`method`:`ping`}")
           [("jsonrpc", VStr "2.0"); ("method", VStr "ping")]); reflexivity.
Defined.



(** C9.  The arguments of a call are not checked against the schema of
    the tool: a [reverse_string] call whose arguments object has no
    [text] succeeds, the text being taken as empty. *)
Theorem reverse_string_missing_text
    (json_loads : string -> outcome value) (py_eval : string -> outcome string)
    (line : string) (d params arguments : dict) (i : value) :
  json_loads (strip line) = Returned (VDict d) ->
  dict_get "method" d = Some (VStr "tools/call") ->
  dict_get "id" d = Some i ->
  dict_get "params" d = Some (VDict params) ->
  dict_get "name" params = Some (VStr "reverse_string") ->
  dict_get "arguments" params = Some (VDict arguments) ->
  dict_get "text" arguments = None ->
  handle_message json_loads py_eval line =
    ([Stdout (json_dumps (text_result i "Original: '' -> Reversed: ''"))], Returned tt)
  /\ In (VStr "text") (required_by "reverse_string" TOOLS).
Proof.
  intros Hl Hm Hi Hp Hn Ha Ht. split; [|left; reflexivity].
  rewrite (dispatch _ _ _ _ Hl), (method_named _ _ Hm). simpl eq_str. cbv iota.
  rewrite (reverse_string_response py_eval d params i EmptyString).
  - reflexivity.
  - unfold params_of. rewrite Hp. reflexivity.
  - exact Hi.
  - unfold tool_of. rewrite Hn. reflexivity.
  - unfold arguments_of. rewrite Ha. simpl. rewrite Ht. reflexivity.
Qed.

Lemma reverse_string_missing_text_witness :
  sample_loads
    (strip (quoted "{`jsonrpc`:`2.0`,`id`:4,`method`:`tools/call`,`params`:{`name`:`reverse_string`,`arguments`:{}}}")) =
    Returned (VDict [ ("jsonrpc", VStr "2.0"); ("id", VInt 4); ("method", VStr "tools/call");
                      ("params", VDict [ ("name", VStr "reverse_string");
                                         ("arguments", VDict []) ]) ])
  /\ handle_message sample_loads sample_eval
       (quoted "{`jsonrpc`:`2.0`,`id`:4,`method`:`tools/call`,`params`:{`name`:`reverse_string`,`arguments`:{}}}") =
     ([Stdout
         (quoted "{`jsonrpc`: `2.0`, `id`: 4, `result`: {`content`: [{`type`: `text`, `text`: `Original: '' -> Reversed: ''`}]}}")],
      Returned tt).
Proof.
  split; [reflexivity|].
  apply (reverse_string_missing_text sample_loads sample_eval
           (quoted "{`jsonrpc`:`2.0`,`id`:4,`method`:`tools/call`,`params`:{`name`:`reverse_string`,`arguments`:{}}}")
           [ ("jsonrpc", VStr "2.0"); ("id", VInt 4); ("method", VStr "tools/call");
             ("params", VDict [("name", VStr "reverse_string"); ("arguments", VDict [])]) ]
           [("name", VStr "reverse_string"); ("arguments", VDict [])] [] (VInt 4));
    reflexivity.
Defined.

(** C10.  A line that is JSON but not an object gets no response: reading
    its method raises an [AttributeError], which the last handler of
    [handle_message] logs; the handler returns and the loop goes on with
    the next line. *)
Theorem non_object_line_unanswered
    (json_loads : string -> outcome value) (py_eval : string -> outcome string)
    (line : string) (v : value) :
  json_loads (strip line) = Returned v ->
  is_dict v = false ->
  handle_message json_loads py_eval line =
    ([Stderr ("[Python Server] Error handling message: '" ++ type_name v
              ++ "' object has no attribute 'get'")],
     Returned tt)
  /\ stdout_of (handle_message json_loads py_eval line) = []
  /\ forall rest,
       stdout_of (main json_loads py_eval (line :: rest)) =
       stdout_of (main json_loads py_eval rest).
Proof.
  intros Hl Hv. pose proof (not_object_logged json_loads py_eval _ _ Hl Hv) as H.
  split; [exact H|]. split; [rewrite H; reflexivity|].
  intros rest. apply silent_line_skipped; rewrite H; reflexivity.
Qed.

Lemma non_object_line_unanswered_witness :
  sample_loads (strip "[1, 2]") = Returned (VList [VInt 1; VInt 2])
  /\ is_dict (VList [VInt 1; VInt 2]) = false
  /\ handle_message sample_loads sample_eval "[1, 2]" =
     ([Stderr "[Python Server] Error handling message: 'list' object has no attribute 'get'"],
      Returned tt).
Proof.
  split; [reflexivity|]. split; [reflexivity|].
  apply (non_object_line_unanswered sample_loads sample_eval "[1, 2]"
           (VList [VInt 1; VInt 2])); reflexivity.
Defined.

(** C6.  A [tools/call] request that carries an id and whose [params] is
    absent or an object, and whose name is absent or not the name of a
    tool of the registry, is answered by an error with code -32601 whose
    message is ["Unknown tool: "] followed by the name asked for; so is
    the request for the tool [nope] under id 2. *)
Theorem unknown_tool_error :
  (forall (json_loads : string -> outcome value) (py_eval : string -> outcome string)
          (line : string) (d params : dict) (i : value),
      json_loads (strip line) = Returned (VDict d) ->
      dict_get "method" d = Some (VStr "tools/call") ->
      dict_get "id" d = Some i ->
      params_of d = Some params ->
      ~ In (tool_of params) (tool_names TOOLS) ->
      handle_message json_loads py_eval line =
      ([Stdout
          (json_dumps
             (error_response i (-32601) ("Unknown tool: " ++ py_str (tool_of params))))],
       Returned tt))
  /\ (forall (float_of_literal : string -> pyfloat) (decode_error : string -> string)
             (py_eval : string -> outcome string),
        handle_message (loads float_of_literal decode_error) py_eval
          (quoted "{`jsonrpc`:`2.0`,`id`:2,`method`:`tools/call`,`params`:{`name`:`nope`}}") =
        ([Stdout
            (json_dumps (error_response (VInt 2) (-32601) "Unknown tool: nope"))],
         Returned tt)).
Proof.
  split.
  - intros json_loads py_eval line d params i Hl Hm Hi Hp Hn.
    rewrite (dispatch _ _ _ _ Hl), (method_named _ _ Hm). simpl eq_str. cbv iota.
    rewrite (unknown_tool_response py_eval d params i Hp Hi).
    + reflexivity.
    + apply eq_str_other. intros E. apply Hn. rewrite E. simpl. auto.
    + apply eq_str_other. intros E. apply Hn. rewrite E. simpl. auto.
  - intros. reflexivity.
Qed.

Lemma unknown_tool_error_witness :
  sample_loads (strip (quoted "{`id`:9,`method`:`tools/call`}")) =
    Returned (VDict [("id", VInt 9); ("method", VStr "tools/call")])
  /\ params_of [("id", VInt 9); ("method", VStr "tools/call")] = Some []
  /\ ~ In (tool_of []) (tool_names TOOLS)
  /\ handle_message sample_loads sample_eval (quoted "{`id`:9,`method`:`tools/call`}") =
     ([Stdout
         (quoted "{`jsonrpc`: `2.0`, `id`: 9, `error`: {`code`: -32601, `message`: `Unknown tool: None`}}")],
      Returned tt).
Proof.
  assert (Hn : ~ In (tool_of []) (tool_names TOOLS)).
  { simpl. intros [H|[H|[]]]; discriminate H. }
  split; [reflexivity|]. split; [reflexivity|]. split; [exact Hn|].
  apply (proj1 unknown_tool_error sample_loads sample_eval
           (quoted "{`id`:9,`method`:`tools/call`}")
           [("id", VInt 9); ("method", VStr "tools/call")] [] (VInt 9));
    try reflexivity. exact Hn.
Defined.

(** C4.  The request for [reverse_string] on [abc] under id 1 is answered
    by one line, the success result with the one text item
    [Original: 'abc' -> Reversed: 'cba']: the line written is the JSON
    value of the expected text, in the spacing of [json.dumps]. *)
Theorem reverse_string_scenario
    (float_of_literal : string -> pyfloat) (decode_error : string -> string)
    (py_eval : string -> outcome string) :
  handle_message (loads float_of_literal decode_error) py_eval
    (quoted "{`jsonrpc`:`2.0`,`id`:1,`method`:`tools/call`,`params`:{`name`:`reverse_string`,`arguments`:{`text`:`abc`}}}") =
  ([Stdout
      (quoted "{`jsonrpc`: `2.0`, `id`: 1, `result`: {`content`: [{`type`: `text`, `text`: `Original: 'abc' -> Reversed: 'cba'`}]}}")],
   Returned tt)
  /\ parse_json float_of_literal
       (quoted "{`jsonrpc`: `2.0`, `id`: 1, `result`: {`content`: [{`type`: `text`, `text`: `Original: 'abc' -> Reversed: 'cba'`}]}}") =
     parse_json float_of_literal
       (quoted "{`jsonrpc`:`2.0`,`id`:1,`result`:{`content`:[{`type`:`text`,`text`:`Original: 'abc' -> Reversed: 'cba'`}]}}")
  /\ parse_json float_of_literal
       (quoted "{`jsonrpc`:`2.0`,`id`:1,`result`:{`content`:[{`type`:`text`,`text`:`Original: 'abc' -> Reversed: 'cba'`}]}}") =
     Some (text_result (VInt 1) "Original: 'abc' -> Reversed: 'cba'").
Proof. repeat split. Qed.

(** C2.  The fault of a tool is turned into the error -32000 in the
    [calculate] branch only.  A [reverse_string] call whose [text] is a
    number faults in the slice; nothing in the tool-call handler catches
    it: no response is written and the last handler of [handle_message]
    logs it. *)
Theorem reverse_string_fault_unanswered
    (float_of_literal : string -> pyfloat) (decode_error : string -> string)
    (py_eval : string -> outcome string) :
  handle_message (loads float_of_literal decode_error) py_eval
    (quoted "{`jsonrpc`:`2.0`,`id`:1,`method`:`tools/call`,`params`:{`name`:`reverse_string`,`arguments`:{`text`:5}}}") =
  ([Stderr "[Python Server] Error handling message: 'int' object is not subscriptable"],
   Returned tt)
  /\ handle_message (loads float_of_literal decode_error) sample_eval
       (quoted "{`jsonrpc`:`2.0`,`id`:1,`method`:`tools/call`,`params`:{`name`:`calculate`,`arguments`:{`expression`:`1 / 0`}}}") =
     ([Stdout
         (json_dumps
            (error_response (VInt 1) (-32000) "Calculation error: division by zero"))],
      Returned tt).
Proof. split; reflexivity. Qed.

(** C7.  A missing id is read as null on the unknown-method path only.
    The three handlers subscript the message: an [initialize], a
    [tools/list] or a [tools/call] request without id raises [KeyError],
    gets no response and leaves one diagnostic; a missing [params] is
    read as the empty object. *)
Theorem request_without_id_unanswered
    (float_of_literal : string -> pyfloat) (decode_error : string -> string)
    (py_eval : string -> outcome string) :
  handle_message (loads float_of_literal decode_error) py_eval
    (quoted "{`jsonrpc`:`2.0`,`method`:`initialize`}") =
  ([Stderr "[Python Server] Error handling message: 'id'"], Returned tt)
  /\ handle_message (loads float_of_literal decode_error) py_eval
       (quoted "{`jsonrpc`:`2.0`,`method`:`tools/list`}") =
     ([Stderr "[Python Server] Error handling message: 'id'"], Returned tt)
  /\ handle_message (loads float_of_literal decode_error) py_eval
       (quoted "{`jsonrpc`:`2.0`,`method`:`tools/call`,`params`:{`name`:`reverse_string`,`arguments`:{`text`:`abc`}}}") =
     ([Stderr "[Python Server] Error handling message: 'id'"], Returned tt)
  /\ handle_message (loads float_of_literal decode_error) py_eval
       (quoted "{`jsonrpc`:`2.0`,`method`:`ping`}") =
     ([Stdout
         (json_dumps (error_response VNone (-32601) "Method not found: ping"))],
      Returned tt)
  /\ handle_message (loads float_of_literal decode_error) py_eval
       (quoted "{`jsonrpc`:`2.0`,`id`:1,`method`:`tools/call`}") =
     ([Stdout (json_dumps (error_response (VInt 1) (-32601) "Unknown tool: None"))],
      Returned tt).
Proof. repeat split. Qed.

(** * Further properties of the handlers and of the loop *)

Lemma yields_ret {A : Type} (P : A -> Prop) (a : A) : P a -> yields P (ret a).
Proof. intros H. split; [reflexivity|]. simpl. intros a' E. injection E as <-. exact H. Qed.

Lemma yields_raise {A : Type} (P : A -> Prop) (c : exn_class) (s : string) :
  yields P (@raise A c s).
Proof. split; [reflexivity|]. simpl. discriminate. Qed.

Lemma yields_bind {A B : Type} (P : B -> Prop) (m : py A) (k : A -> py B) :
  quiet m -> (forall a, snd m = Returned a -> yields P (k a)) -> yields P (bind m k).
Proof.
  unfold quiet. destruct m as [t [a|e]]; simpl; intros -> Hk.
  - destruct (Hk a eq_refl) as [H1 H2]. destruct (k a) as [t' r]. simpl in *.
    split; assumption.
  - split; [reflexivity|]. simpl. discriminate.
Qed.

Lemma yields_try_except {A : Type} (P : A -> Prop) (body : py A)
    (accepts : exn -> bool) (handler : exn -> py A) :
  yields P body -> (forall e, yields P (handler e)) ->
  yields P (try_except body [(accepts, handler)]).
Proof.
  intros [H1 H2] Hh. destruct body as [t [a|e]]; simpl in *; subst t.
  - split; [reflexivity|]. exact H2.
  - destruct (accepts e).
    + destruct (Hh e) as [H3 H4]. destruct (handler e) as [t' r]. simpl in *.
      split; assumption.
    + split; [reflexivity|]. simpl. discriminate.
Qed.

Lemma getitem_id (d : dict) (i : value) :
  snd (getitem (VDict d) "id") = Returned i -> dict_get "id" d = Some i.
Proof.
  simpl. destruct (dict_get "id" d); simpl; intros E.
  - injection E as <-. reflexivity.
  - discriminate.
Qed.


Section Replies.
Variable json_loads : string -> outcome value.
Variable py_eval : string -> outcome string.

(** What the tool-call handler sends is a reply under the id of the request. *)
Lemma tool_call_reply (d : dict) (s : string) :
  In s (stdout_of (handle_tool_call py_eval (VDict d))) ->
  exists i r, dict_get "id" d = Some i /\ s = json_dumps r /\ reply i r.
Proof.
  unfold handle_tool_call.
  destruct (get (VDict d) "params" (VDict [])) as [t [params|e]] eqn:E1;
    pose proof (quiet_get (VDict d) "params" (VDict [])) as Q1; rewrite E1 in Q1;
    unfold quiet in Q1; simpl in Q1; subst t; [|intros []].
  change ([], Returned params) with (ret params). rewrite bind_ret.
  destruct (get params "name" VNone) as [t [tool_name|e]] eqn:E2;
    pose proof (quiet_get params "name" VNone) as Q2; rewrite E2 in Q2;
    unfold quiet in Q2; simpl in Q2; subst t; [|intros []].
  change ([], Returned tool_name) with (ret tool_name). rewrite bind_ret, bind_ret.
  destruct (get params "arguments" (VDict [])) as [t [arguments|e]] eqn:E3;
    pose proof (quiet_get params "arguments" (VDict [])) as Q3; rewrite E3 in Q3;
    unfold quiet in Q3; simpl in Q3; subst t; [|intros []].
  change ([], Returned arguments) with (ret arguments). rewrite bind_ret.
  match goal with |- In s (stdout_of (bind ?m _)) -> _ =>
    assert (Y : yields (fun r => exists i, dict_get "id" d = Some i /\ reply i r) m) end.
  { destruct (eq_str tool_name "calculate").
    - apply yields_try_except.
      + apply yields_bind; [auto with py|intros expression _].
        apply yields_bind; [auto with py|intros result _].
        apply yields_bind; [auto with py|intros i Hi].
        apply yields_ret. exists i. split; [apply getitem_id, Hi|constructor].
      + intros e. apply yields_bind; [auto with py|intros i Hi].
        apply yields_ret. exists i. split; [apply getitem_id, Hi|].
        constructor. right. reflexivity.
    - destruct (eq_str tool_name "reverse_string").
      + apply yields_bind; [auto with py|intros text _].
        apply yields_bind; [auto with py|intros reversed_text _].
        apply yields_bind; [auto with py|intros i Hi].
        apply yields_ret. exists i. split; [apply getitem_id, Hi|constructor].
      + apply yields_bind; [auto with py|intros i Hi].
        apply yields_ret. exists i. split; [apply getitem_id, Hi|].
        constructor. left. reflexivity. }
  destruct Y as [Y1 Y2].
  match goal with |- In s (stdout_of (bind ?m _)) -> _ => destruct m as [t [r|e]] end;
    simpl in Y1; subst t; [|intros []].
  intros [<-|[]]. destruct (Y2 r eq_refl) as (i & Hi & Hr).
  exists i, r. auto.
Qed.


Lemma initialize_reply (d : dict) (s : string) :
  In s (stdout_of (handle_initialize (VDict d))) ->
  exists i r, dict_get "id" d = Some i /\ s = json_dumps r /\ reply i r.
Proof.
  destruct (dict_get "id" d) as [i|] eqn:Hi.
  - rewrite (handle_initialize_id _ _ Hi). intros [<-|[]].
    exists i. eexists. split; [reflexivity|]. split; [reflexivity|]. constructor.
  - unfold handle_initialize. rewrite (getitem_absent _ _ Hi). intros [].
Qed.

Lemma tools_list_reply (d : dict) (s : string) :
  In s (stdout_of (handle_tools_list (VDict d))) ->
  exists i r, dict_get "id" d = Some i /\ s = json_dumps r /\ reply i r.
Proof.
  destruct (dict_get "id" d) as [i|] eqn:Hi.
  - rewrite (handle_tools_list_id _ _ Hi). intros [<-|[]].
    exists i. eexists. split; [reflexivity|]. split; [reflexivity|]. constructor.
  - unfold handle_tools_list. rewrite (getitem_absent _ _ Hi). intros [].
Qed.

(** The two handlers of [handle_message] only log: what is on stdout
    after them was written by the body. *)
Lemma logged_stdout (body : py unit) (s : string) :
  answer body ->
  In s (stdout_of
          (try_except body
             [ (is_JSONDecodeError, fun e => log ("JSON parse error: " ++ exn_str e));
               (is_Exception, fun e => log ("Error handling message: " ++ exn_str e)) ])) ->
  In s (stdout_of body).
Proof.
  destruct 1 as [r|e]; [exact (fun H => H)|].
  rewrite !try_except_raised.
  destruct (is_JSONDecodeError e); [intros []|].
  destruct (is_Exception e); intros [].
Qed.

(** A response to a routed request is sent under the id the request has. *)
Lemma routed_reply (line s : string) (d : dict) :
  json_loads (strip line) = Returned (VDict d) ->
  routed (method_of d) = true ->
  In s (stdout_of (handle_message json_loads py_eval line)) ->
  exists i r, dict_get "id" d = Some i /\ s = json_dumps r /\ reply i r.
Proof.
  intros Hl Hr. rewrite (dispatch _ _ _ _ Hl). intros H.
  apply logged_stdout in H.
  - destruct (eq_str (method_of d) "initialize") eqn:H1; [apply initialize_reply, H|].
    destruct (eq_str (method_of d) "tools/list") eqn:H2; [apply tools_list_reply, H|].
    destruct (eq_str (method_of d) "tools/call") eqn:H3; [apply tool_call_reply, H|].
    unfold routed in Hr. rewrite H1, H2, H3 in Hr. discriminate.
  - destruct (eq_str (method_of d) "initialize"); [apply answer_initialize|].
    destruct (eq_str (method_of d) "tools/list"); [apply answer_tools_list|].
    destruct (eq_str (method_of d) "tools/call"); [apply answer_tool_call|].
    apply answer_send.
Qed.


Lemma for_each_stdout (lines : list string) (s : string) :
  In s (stdout_of (for_each lines (serve json_loads py_eval))) ->
  exists line, In line lines /\ In s (stdout_of (serve json_loads py_eval line)).
Proof.
  induction lines as [|line lines IH]; [intros []|].
  simpl for_each. rewrite stdout_of_bind. intros H. apply in_app_or in H as [H|H].
  - exists line. split; [left; reflexivity|exact H].
  - destruct (snd (serve json_loads py_eval line)); [|destruct H].
    destruct (IH H) as (l & Hl & Hs). exists l. split; [right; exact Hl|exact Hs].
Qed.

End Replies.

Section Runs.
Variable json_loads : string -> outcome value.
Variable py_eval : string -> outcome string.

Lemma for_each_app_full (before after : list string) :
  for_each (before ++ after) (serve json_loads py_eval) =
  bind (for_each before (serve json_loads py_eval))
       (fun _ => for_each after (serve json_loads py_eval)).
Proof.
  induction before as [|line before IH].
  - symmetry. apply (bind_ret tt).
  - simpl. rewrite IH.
    destruct (serve json_loads py_eval line) as [t [[]|e]]; simpl; [|reflexivity].
    destruct (for_each before (serve json_loads py_eval)) as [t1 [[]|e1]]; simpl.
    + destruct (for_each after (serve json_loads py_eval)) as [t2 r2].
      rewrite List.app_assoc. reflexivity.
    + reflexivity.
Qed.




End Runs.



(** X3.  A line that is empty once stripped is skipped: the run is, event
    for event, the run on the input without it; the decoder is not even
    called on it. *)
Theorem blank_line_skipped
    (json_loads : string -> outcome value) (py_eval : string -> outcome string)
    (before after : list string) (line : string) :
  nonempty (strip line) = false ->
  main json_loads py_eval (before ++ line :: after) =
  main json_loads py_eval (before ++ after).
Proof.
  intros H. unfold main.
  rewrite (for_each_app_full json_loads py_eval before (line :: after)).
  rewrite (for_each_app_full json_loads py_eval before after).
  simpl for_each. unfold serve at 2. rewrite H, bind_ret. reflexivity.
Qed.

Lemma blank_line_skipped_witness :
  nonempty (strip (String "009" (String " " (String "010" EmptyString)))) = false
  /\ main sample_loads sample_eval
       ([quoted "{`id`:1,`method`:`a`}"]
        ++ String "009" (String " " (String "010" EmptyString))
        :: [quoted "{`id`:2,`method`:`b`}"]) =
     main sample_loads sample_eval
       ([quoted "{`id`:1,`method`:`a`}"] ++ [quoted "{`id`:2,`method`:`b`}"]).
Proof.
  split; [reflexivity|].
  apply (blank_line_skipped sample_loads sample_eval). reflexivity.
Defined.


(** ** Texts and their reversal *)

Lemma str_append_nil_r (s : string) : s ++ EmptyString = s.
Proof. induction s as [|c s IH]; simpl; [reflexivity|]. rewrite IH. reflexivity. Qed.

Lemma str_append_assoc (s t u : string) : (s ++ t) ++ u = s ++ (t ++ u).
Proof. induction s as [|c s IH]; simpl; [reflexivity|]. rewrite IH. reflexivity. Qed.

Lemma str_rev_append (s t : string) : str_rev (s ++ t) = str_rev t ++ str_rev s.
Proof.
  induction s as [|c s IH]; simpl.
  - symmetry. apply str_append_nil_r.
  - rewrite IH. apply str_append_assoc.
Qed.

Lemma str_rev_involutive (s : string) : str_rev (str_rev s) = s.
Proof.
  induction s as [|c s IH]; simpl; [reflexivity|].
  rewrite str_rev_append, IH. reflexivity.
Qed.

Lemma str_length_append (s t : string) :
  String.length (s ++ t) = (String.length s + String.length t)%nat.
Proof. induction s as [|c s IH]; simpl; [reflexivity|]. rewrite IH. reflexivity. Qed.

Lemma str_rev_length (s : string) : String.length (str_rev s) = String.length s.
Proof.
  induction s as [|c s IH]; simpl; [reflexivity|].
  rewrite str_length_append, IH. simpl. lia.
Qed.

Section Tools.
Variable json_loads : string -> outcome value.
Variable py_eval : string -> outcome string.

Lemma tool_call_line (line : string) (d : dict) :
  json_loads (strip line) = Returned (VDict d) ->
  dict_get "method" d = Some (VStr "tools/call") ->
  handle_message json_loads py_eval line =
  try_except (handle_tool_call py_eval (VDict d))
    [ (is_JSONDecodeError, fun e => log ("JSON parse error: " ++ exn_str e));
      (is_Exception, fun e => log ("Error handling message: " ++ exn_str e)) ].
Proof.
  intros Hl Hm. rewrite (dispatch _ _ _ _ Hl), (method_named _ _ Hm). reflexivity.
Qed.

Lemma reverse_string_raises (d params : dict) (e : exn) :
  params_of d = Some params ->
  tool_of params = VStr "reverse_string" ->
  (text <- get (arguments_of params) "text" (VStr EmptyString) ;; reversed text) =
    ([], Raised e) ->
  handle_tool_call py_eval (VDict d) = ([], Raised e).
Proof.
  intros Hp Ht H. rewrite (tool_call_body _ _ _ Hp), Ht. simpl eq_str. cbv iota.
  destruct (get (arguments_of params) "text" (VStr EmptyString)) as [t [text|e']] eqn:E;
    pose proof (quiet_get (arguments_of params) "text" (VStr EmptyString)) as Q;
    rewrite E in Q; unfold quiet in Q; simpl in Q; subst t.
  - change ([], Returned text) with (ret text) in *. rewrite bind_ret in H.
    rewrite bind_ret. cbv beta. rewrite H. reflexivity.
  - rewrite bind_raised in H. injection H as ->. reflexivity.
Qed.

End Tools.

(** X5.  [reverse_string] on a text: the one response is the success
    [Original: '<text>' -> Reversed: '<text backwards>'] under the id of
    the request; a missing [text] counts as the empty one.  Reversing
    keeps the length, and reversing the reversed text gives the text
    back. *)
Theorem reverse_string_answers
    (json_loads : string -> outcome value) (py_eval : string -> outcome string)
    (line : string) (d params : dict) (i : value) (text : string) :
  json_loads (strip line) = Returned (VDict d) ->
  dict_get "method" d = Some (VStr "tools/call") ->
  dict_get "id" d = Some i ->
  params_of d = Some params ->
  tool_of params = VStr "reverse_string" ->
  argument (arguments_of params) "text" (VStr EmptyString) = Some (VStr text) ->
  handle_message json_loads py_eval line =
    ([Stdout
        (json_dumps
           (text_result i
              ("Original: '" ++ text ++ "' -> Reversed: '" ++ str_rev text ++ "'")))],
     Returned tt)
  /\ str_rev (str_rev text) = text
  /\ String.length (str_rev text) = String.length text.
Proof.
  intros Hl Hm Hi Hp Ht Ha.
  split; [|split; [apply str_rev_involutive|apply str_rev_length]].
  rewrite (tool_call_line _ _ _ _ Hl Hm).
  rewrite (reverse_string_response py_eval _ _ _ _ Hp Hi Ht Ha). reflexivity.
Qed.

Lemma reverse_string_answers_witness :
  sample_loads
    (strip (quoted "{`id`:`r1`,`method`:`tools/call`,`params`:{`name`:`reverse_string`,`arguments`:{`text`:`stressed`}}}")) =
  Returned
    (VDict [ ("id", VStr "r1"); ("method", VStr "tools/call");
             ("params", VDict [ ("name", VStr "reverse_string");
                                ("arguments", VDict [("text", VStr "stressed")]) ]) ])
  /\ handle_message sample_loads sample_eval
       (quoted "{`id`:`r1`,`method`:`tools/call`,`params`:{`name`:`reverse_string`,`arguments`:{`text`:`stressed`}}}") =
     ([Stdout
         (quoted "{`jsonrpc`: `2.0`, `id`: `r1`, `result`: {`content`: [{`type`: `text`, `text`: `Original: 'stressed' -> Reversed: 'desserts'`}]}}")],
      Returned tt).
Proof.
  split; [reflexivity|].
  apply (reverse_string_answers sample_loads sample_eval
           (quoted "{`id`:`r1`,`method`:`tools/call`,`params`:{`name`:`reverse_string`,`arguments`:{`text`:`stressed`}}}")
           [ ("id", VStr "r1"); ("method", VStr "tools/call");
             ("params", VDict [ ("name", VStr "reverse_string");
                                ("arguments", VDict [("text", VStr "stressed")]) ]) ]
           [ ("name", VStr "reverse_string");
             ("arguments", VDict [("text", VStr "stressed")]) ]
           (VStr "r1") "stressed"); reflexivity.
Defined.

(** X6.  [reverse_string] does not ask for a text: a [text] that is a JSON
    array is reversed item by item, and the response shows the array and
    its reversal as Python prints lists. *)
Theorem reverse_string_reverses_arrays
    (json_loads : string -> outcome value) (py_eval : string -> outcome string)
    (line : string) (d params : dict) (i : value) (items : list value) :
  json_loads (strip line) = Returned (VDict d) ->
  dict_get "method" d = Some (VStr "tools/call") ->
  dict_get "id" d = Some i ->
  params_of d = Some params ->
  tool_of params = VStr "reverse_string" ->
  argument (arguments_of params) "text" (VStr EmptyString) = Some (VList items) ->
  handle_message json_loads py_eval line =
  ([Stdout
      (json_dumps
         (text_result i
            ("Original: '" ++ py_repr (VList items) ++ "' -> Reversed: '"
             ++ py_repr (VList (rev items)) ++ "'")))],
   Returned tt).
Proof.
  intros Hl Hm Hi Hp Ht Ha.
  rewrite (tool_call_line _ _ _ _ Hl Hm), (tool_call_body _ _ _ Hp), Ht.
  simpl eq_str. cbv iota. rewrite get_argument, Ha. run.
  change (reversed (VList items)) with (ret (VList (rev items))). run.
  rewrite (getitem_present _ _ _ Hi). run. reflexivity.
Qed.

Lemma reverse_string_reverses_arrays_witness :
  sample_loads
    (strip (quoted "{`id`:1,`method`:`tools/call`,`params`:{`name`:`reverse_string`,`arguments`:{`text`:[1,`a`,null]}}}")) =
  Returned
    (VDict [ ("id", VInt 1); ("method", VStr "tools/call");
             ("params", VDict [ ("name", VStr "reverse_string");
                                ("arguments",
                                 VDict [("text", VList [VInt 1; VStr "a"; VNone])]) ]) ])
  /\ handle_message sample_loads sample_eval
       (quoted "{`id`:1,`method`:`tools/call`,`params`:{`name`:`reverse_string`,`arguments`:{`text`:[1,`a`,null]}}}") =
     ([Stdout
         (quoted "{`jsonrpc`: `2.0`, `id`: 1, `result`: {`content`: [{`type`: `text`, `text`: `Original: '[1, 'a', None]' -> Reversed: '[None, 'a', 1]'`}]}}")],
      Returned tt).
Proof.
  split; [reflexivity|].
  apply (reverse_string_reverses_arrays sample_loads sample_eval
           (quoted "{`id`:1,`method`:`tools/call`,`params`:{`name`:`reverse_string`,`arguments`:{`text`:[1,`a`,null]}}}")
           [ ("id", VInt 1); ("method", VStr "tools/call");
             ("params", VDict [ ("name", VStr "reverse_string");
                                ("arguments",
                                 VDict [("text", VList [VInt 1; VStr "a"; VNone])]) ]) ]
           [ ("name", VStr "reverse_string");
             ("arguments", VDict [("text", VList [VInt 1; VStr "a"; VNone])]) ]
           (VInt 1) [VInt 1; VStr "a"; VNone]); reflexivity.
Defined.

(** X7.  [reverse_string] on a [text] that is null, a bool or a number:
    the slice raises, no branch of the tool-call handler catches it, and
    the request, with or without id, gets no response; the last handler
    of [handle_message] logs the [TypeError] and returns. *)
Theorem reverse_string_scalar_logged
    (json_loads : string -> outcome value) (py_eval : string -> outcome string)
    (line : string) (d params : dict) (text : value) :
  json_loads (strip line) = Returned (VDict d) ->
  dict_get "method" d = Some (VStr "tools/call") ->
  params_of d = Some params ->
  tool_of params = VStr "reverse_string" ->
  argument (arguments_of params) "text" (VStr EmptyString) = Some text ->
  is_scalar text = true ->
  handle_message json_loads py_eval line =
  ([Stderr ("[Python Server] Error handling message: '" ++ type_name text
            ++ "' object is not subscriptable")],
   Returned tt).
Proof.
  intros Hl Hm Hp Ht Ha Hs.
  rewrite (tool_call_line _ _ _ _ Hl Hm).
  rewrite (reverse_string_raises py_eval d params
             (mk_exn TypeError ("'" ++ type_name text ++ "' object is not subscriptable"))
             Hp Ht).
  - rewrite !try_except_raised. reflexivity.
  - rewrite get_argument, Ha, bind_ret. destruct text; try discriminate Hs; reflexivity.
Qed.

Lemma reverse_string_scalar_logged_witness :
  sample_loads
    (strip (quoted "{`id`:1,`method`:`tools/call`,`params`:{`name`:`reverse_string`,`arguments`:{`text`:null}}}")) =
  Returned
    (VDict [ ("id", VInt 1); ("method", VStr "tools/call");
             ("params", VDict [ ("name", VStr "reverse_string");
                                ("arguments", VDict [("text", VNone)]) ]) ])
  /\ handle_message sample_loads sample_eval
       (quoted "{`id`:1,`method`:`tools/call`,`params`:{`name`:`reverse_string`,`arguments`:{`text`:null}}}") =
     ([Stderr "[Python Server] Error handling message: 'NoneType' object is not subscriptable"],
      Returned tt).
Proof.
  split; [reflexivity|].
  apply (reverse_string_scalar_logged sample_loads sample_eval
           (quoted "{`id`:1,`method`:`tools/call`,`params`:{`name`:`reverse_string`,`arguments`:{`text`:null}}}")
           [ ("id", VInt 1); ("method", VStr "tools/call");
             ("params", VDict [ ("name", VStr "reverse_string");
                                ("arguments", VDict [("text", VNone)]) ]) ]
           [("name", VStr "reverse_string"); ("arguments", VDict [("text", VNone)])]
           VNone); reflexivity.
Defined.

(** X10.  The same malformed [arguments] end differently in the two tools.
    When [arguments] is there and is not an object, [calculate] answers:
    reading the expression is inside its [try], so the request gets the
    error -32000 with the text of the [AttributeError];
    [reverse_string] reads [text] outside any [try], so the request gets
    no response and the [AttributeError] is only logged. *)
Theorem arguments_not_object
    (json_loads : string -> outcome value) (py_eval : string -> outcome string)
    (line : string) (d params : dict) (i arguments : value) :
  json_loads (strip line) = Returned (VDict d) ->
  dict_get "method" d = Some (VStr "tools/call") ->
  dict_get "id" d = Some i ->
  params_of d = Some params ->
  dict_get "arguments" params = Some arguments ->
  is_dict arguments = false ->
  (tool_of params = VStr "calculate" ->
   handle_message json_loads py_eval line =
   ([Stdout
       (json_dumps
          (error_response i (-32000)
             ("Calculation error: '" ++ type_name arguments
              ++ "' object has no attribute 'get'")))],
    Returned tt))
  /\ (tool_of params = VStr "reverse_string" ->
      handle_message json_loads py_eval line =
      ([Stderr ("[Python Server] Error handling message: '" ++ type_name arguments
                ++ "' object has no attribute 'get'")],
       Returned tt)).
Proof.
  intros Hl Hm Hi Hp Ha Hd.
  assert (Hargs : arguments_of params = arguments).
  { unfold arguments_of. rewrite Ha. reflexivity. }
  assert (Hnone : forall key default, argument arguments key default = None).
  { intros. destruct arguments; try reflexivity. discriminate Hd. }
  rewrite (tool_call_line _ _ _ _ Hl Hm). split; intros Ht.
  - rewrite (calculate_bad_arguments py_eval _ _ _ Hp Hi Ht).
    + rewrite Hargs. reflexivity.
    + rewrite Hargs. apply Hnone.
  - rewrite (reverse_string_raises py_eval d params
               (mk_exn AttributeError
                  ("'" ++ type_name arguments ++ "' object has no attribute 'get'"))
               Hp Ht).
    + rewrite !try_except_raised. reflexivity.
    + rewrite get_argument, Hargs, Hnone. reflexivity.
Qed.

Lemma arguments_not_object_witness :
  sample_loads
    (strip (quoted "{`id`:5,`method`:`tools/call`,`params`:{`name`:`calculate`,`arguments`:[`2 + 2`]}}")) =
  Returned
    (VDict [ ("id", VInt 5); ("method", VStr "tools/call");
             ("params", VDict [ ("name", VStr "calculate");
                                ("arguments", VList [VStr "2 + 2"]) ]) ])
  /\ handle_message sample_loads sample_eval
       (quoted "{`id`:5,`method`:`tools/call`,`params`:{`name`:`calculate`,`arguments`:[`2 + 2`]}}") =
     ([Stdout
         (quoted "{`jsonrpc`: `2.0`, `id`: 5, `error`: {`code`: -32000, `message`: `Calculation error: 'list' object has no attribute 'get'`}}")],
      Returned tt).
Proof.
  split; [reflexivity|].
  destruct (arguments_not_object sample_loads sample_eval
              (quoted "{`id`:5,`method`:`tools/call`,`params`:{`name`:`calculate`,`arguments`:[`2 + 2`]}}")
              [ ("id", VInt 5); ("method", VStr "tools/call");
                ("params", VDict [ ("name", VStr "calculate");
                                   ("arguments", VList [VStr "2 + 2"]) ]) ]
              [("name", VStr "calculate"); ("arguments", VList [VStr "2 + 2"])]
              (VInt 5) (VList [VStr "2 + 2"])
              eq_refl eq_refl eq_refl eq_refl eq_refl eq_refl) as [H _].
  exact (H eq_refl).
Defined.

(** X11.  [calculate] turns an expression that is not a text into the
    error -32000: [eval] refuses it with a [TypeError], which the
    handler catches like any other fault of the evaluation. *)
Theorem calculate_expression_not_text
    (json_loads : string -> outcome value) (py_eval : string -> outcome string)
    (line : string) (d params : dict) (i expression : value) :
  json_loads (strip line) = Returned (VDict d) ->
  dict_get "method" d = Some (VStr "tools/call") ->
  dict_get "id" d = Some i ->
  params_of d = Some params ->
  tool_of params = VStr "calculate" ->
  argument (arguments_of params) "expression" (VStr EmptyString) = Some expression ->
  is_str expression = false ->
  handle_message json_loads py_eval line =
  ([Stdout
      (json_dumps
         (error_response i (-32000)
            "Calculation error: eval() arg 1 must be a string, bytes or code object"))],
   Returned tt).
Proof.
  intros Hl Hm Hi Hp Ht Ha Hn.
  rewrite (tool_call_line _ _ _ _ Hl Hm).
  rewrite (calculate_bad_expression py_eval _ _ _ _ Hp Hi Ht Ha); [reflexivity|].
  destruct expression; try reflexivity. discriminate Hn.
Qed.

Lemma calculate_expression_not_text_witness :
  sample_loads
    (strip (quoted "{`id`:5,`method`:`tools/call`,`params`:{`name`:`calculate`,`arguments`:{`expression`:4}}}")) =
  Returned
    (VDict [ ("id", VInt 5); ("method", VStr "tools/call");
             ("params", VDict [ ("name", VStr "calculate");
                                ("arguments", VDict [("expression", VInt 4)]) ]) ])
  /\ handle_message sample_loads sample_eval
       (quoted "{`id`:5,`method`:`tools/call`,`params`:{`name`:`calculate`,`arguments`:{`expression`:4}}}") =
     ([Stdout
         (quoted "{`jsonrpc`: `2.0`, `id`: 5, `error`: {`code`: -32000, `message`: `Calculation error: eval() arg 1 must be a string, bytes or code object`}}")],
      Returned tt).
Proof.
  split; [reflexivity|].
  apply (calculate_expression_not_text sample_loads sample_eval
           (quoted "{`id`:5,`method`:`tools/call`,`params`:{`name`:`calculate`,`arguments`:{`expression`:4}}}")
           [ ("id", VInt 5); ("method", VStr "tools/call");
             ("params", VDict [ ("name", VStr "calculate");
                                ("arguments", VDict [("expression", VInt 4)]) ]) ]
           [("name", VStr "calculate"); ("arguments", VDict [("expression", VInt 4)])]
           (VInt 5) (VInt 4)); reflexivity.
Defined.

Section Leaving.
Variable json_loads : string -> outcome value.
Variable py_eval : string -> outcome string.

Lemma leaving_not_decode_error (e : exn) :
  is_Exception e = false -> is_JSONDecodeError e = false.
Proof. unfold is_Exception, is_JSONDecodeError. destruct (exn_cls e); auto; discriminate. Qed.



End Leaving.



(** X13.  A [tools/call] whose [params] is there and is not an object gets
    no response, with or without id: reading the name raises an
    [AttributeError], which the last handler of [handle_message] logs. *)
Theorem params_not_object_logged
    (json_loads : string -> outcome value) (py_eval : string -> outcome string)
    (line : string) (d : dict) (params : value) :
  json_loads (strip line) = Returned (VDict d) ->
  dict_get "method" d = Some (VStr "tools/call") ->
  dict_get "params" d = Some params ->
  is_dict params = false ->
  handle_message json_loads py_eval line =
  ([Stderr ("[Python Server] Error handling message: '" ++ type_name params
            ++ "' object has no attribute 'get'")],
   Returned tt).
Proof.
  intros Hl Hm Hp Hd. rewrite (tool_call_line _ _ _ _ Hl Hm).
  unfold handle_tool_call. rewrite get_dict, Hp, bind_ret. cbv beta.
  rewrite (get_not_dict _ _ _ Hd). unfold raise.
  rewrite bind_raised, !try_except_raised. reflexivity.
Qed.

Lemma params_not_object_logged_witness :
  sample_loads
    (strip (quoted "{`id`:1,`method`:`tools/call`,`params`:[`reverse_string`,`abc`]}")) =
  Returned
    (VDict [ ("id", VInt 1); ("method", VStr "tools/call");
             ("params", VList [VStr "reverse_string"; VStr "abc"]) ])
  /\ handle_message sample_loads sample_eval
       (quoted "{`id`:1,`method`:`tools/call`,`params`:[`reverse_string`,`abc`]}") =
     ([Stderr "[Python Server] Error handling message: 'list' object has no attribute 'get'"],
      Returned tt).
Proof.
  split; [reflexivity|].
  apply (params_not_object_logged sample_loads sample_eval
           (quoted "{`id`:1,`method`:`tools/call`,`params`:[`reverse_string`,`abc`]}")
           [ ("id", VInt 1); ("method", VStr "tools/call");
             ("params", VList [VStr "reverse_string"; VStr "abc"]) ]
           (VList [VStr "reverse_string"; VStr "abc"])); reflexivity.
Defined.




Section Provenance.
Variable json_loads : string -> outcome value.
Variable py_eval : string -> outcome string.











End Provenance.




(** ** The line of a response *)

Lemma value_nested_ind (P : value -> Prop) :
  P VNone -> (forall b, P (VBool b)) -> (forall n, P (VInt n)) ->
  (forall x, P (VFloat x)) -> (forall s, P (VStr s)) ->
  (forall l, Forall P l -> P (VList l)) ->
  (forall d, Forall (fun kv : string * value => P (snd kv)) d -> P (VDict d)) ->
  forall v, P v.
Proof.
  intros HNone HBool HInt HFloat HStr HList HDict.
  fix IH 1. intros [ |b|n|x|s|l|d].
  - exact HNone.
  - apply HBool.
  - apply HInt.
  - apply HFloat.
  - apply HStr.
  - apply HList. revert l. fix IHl 1. intros [|v l]; constructor; [apply IH|apply IHl].
  - apply HDict. revert d. fix IHd 1. intros [|[k v] d]; constructor; [apply IH|apply IHd].
Qed.

Lemma ascii_text_append (s t : string) :
  ascii_text (s ++ t) = ascii_text s && ascii_text t.
Proof.
  induction s as [|c s IH]; simpl; [reflexivity|]. rewrite IH. apply andb_assoc.
Qed.

Lemma ascii_text_join (sep : string) (l : list string) :
  ascii_text sep = true -> Forall (fun s => ascii_text s = true) l ->
  ascii_text (join sep l) = true.
Proof.
  intros Hsep. induction 1 as [|s l Hs Hl IH]; [reflexivity|].
  destruct l as [|s' l]; [exact Hs|].
  change (join sep (s :: s' :: l)) with (s ++ sep ++ join sep (s' :: l)).
  rewrite !ascii_text_append, Hs, Hsep, IH. reflexivity.
Qed.

Lemma ascii_text_between (opening closing s : string) :
  ascii_text opening = true -> ascii_text closing = true -> ascii_text s = true ->
  ascii_text (opening ++ s ++ closing) = true.
Proof. intros Ho Hc Hs. rewrite !ascii_text_append, Ho, Hc, Hs. reflexivity. Qed.

Lemma ascii_json_char (c : ascii) (s : string) :
  ascii_text (json_chars (String c s)) = ascii_text (json_chars s).
Proof. destruct c as [[] [] [] [] [] [] [] []]; reflexivity. Qed.

Lemma ascii_json_string (s : string) : ascii_text (json_string s) = true.
Proof.
  unfold json_string. change (String dquote ?x) with (String dquote EmptyString ++ x).
  simpl. rewrite ascii_text_append. simpl. rewrite andb_true_r.
  induction s as [|c s IH]; [reflexivity|]. rewrite ascii_json_char. exact IH.
Qed.

Lemma ascii_uint (u : Decimal.uint) : ascii_text (NilEmpty.string_of_uint u) = true.
Proof. induction u; simpl; auto. Qed.

Lemma ascii_int_str (n : Z) : ascii_text (int_str n) = true.
Proof.
  unfold int_str. destruct (Z.to_int n); simpl; apply ascii_uint.
Qed.

(** X18.  A response takes one line: whatever the value sent, its
    [json.dumps] text is made of printable ASCII characters only, so it
    holds no line break; the strings inside it, keys included, are
    escaped.  (Python writes every float in ASCII.) *)
Theorem response_is_one_ascii_line (r : value) :
  ascii_floats r = true ->
  ascii_text (json_dumps r) = true
  /\ fst (send_response r) = [Stdout (json_dumps r)].
Proof.
  intros H. split; [|reflexivity]. revert H.
  induction r as [ |b|n|x|s|l IH|d IH] using value_nested_ind.
  - reflexivity.
  - destruct b; reflexivity.
  - intros _. apply ascii_int_str.
  - exact (fun H => H).
  - intros _. apply ascii_json_string.
  - intros H. apply (ascii_text_between "[" "]"); [reflexivity|reflexivity|].
    apply ascii_text_join; [reflexivity|].
    induction IH as [|v l Hv _ IHl]; [constructor|].
    simpl in H. apply andb_true_iff in H as [H1 H2].
    constructor; [apply Hv, H1|apply IHl, H2].
  - intros H. apply (ascii_text_between "{" "}"); [reflexivity|reflexivity|].
    apply ascii_text_join; [reflexivity|].
    induction IH as [|[k v] d Hv _ IHd]; [constructor|].
    simpl in H. apply andb_true_iff in H as [H1 H2].
    constructor; [|apply IHd, H2].
    rewrite (ascii_text_append (json_string k)), ascii_json_string.
    apply (Hv H1).
Qed.

Lemma response_is_one_ascii_line_witness :
  ascii_floats
    (text_result (VList [VFloat (mk_pyfloat "1.5" "1.5"); VStr (String "010" "x")])
       (String "200" (String "010" "tab"))) = true
  /\ ascii_text
       (json_dumps
          (text_result (VList [VFloat (mk_pyfloat "1.5" "1.5"); VStr (String "010" "x")])
             (String "200" (String "010" "tab")))) = true.
Proof.
  split; [reflexivity|].
  apply (response_is_one_ascii_line
           (text_result (VList [VFloat (mk_pyfloat "1.5" "1.5"); VStr (String "010" "x")])
              (String "200" (String "010" "tab")))). reflexivity.
Defined.

(** * The server with expressions that reach the store

    The properties of [Live]: the lines that evaluate nothing are served
    as above; a [calculate] call is served after what its evaluation
    printed, on the request and the globals as the evaluation left
    them.  The claims on every line of a run, evaluated expressions
    included, are settled here. *)

Lemma prefixed_nil {A : Type} (r : Live.effect A) : Live.prefixed [] r = r.
Proof. destruct r. reflexivity. Qed.

Lemma prefixed_app {A : Type} (t t' : list event) (r : Live.effect A) :
  Live.prefixed t (Live.prefixed t' r) = Live.prefixed (t ++ t')%list r.
Proof. unfold Live.prefixed. simpl. rewrite List.app_assoc. reflexivity. Qed.

Lemma and_then_returned {A B : Type} (t : list event) (s : Live.store) (a : A)
    (k : A -> Live.run B) :
  Live.and_then (Live.mk_effect t s (Returned a)) k = Live.prefixed t (k a s).
Proof. reflexivity. Qed.

Lemma and_then_raised {A B : Type} (t : list event) (s : Live.store) (e : exn)
    (k : A -> Live.run B) :
  Live.and_then (Live.mk_effect t s (Raised e)) k = Live.mk_effect t s (Raised e).
Proof. reflexivity. Qed.

Lemma live_bind_ret {A B : Type} (a : A) (k : A -> Live.run B) (s : Live.store) :
  Live.bind (Live.ret a) k s = k a s.
Proof. unfold Live.bind, Live.ret. rewrite and_then_returned. apply prefixed_nil. Qed.

Lemma live_bind_pure {A B : Type} (a : A) (k : A -> Live.run B) (s : Live.store) :
  Live.bind (Live.pure (ret a)) k s = k a s.
Proof. apply (live_bind_ret a k s). Qed.

Lemma live_bind_raise {A B : Type} (e : exn) (k : A -> Live.run B) (s : Live.store) :
  Live.bind (Live.pure ([], Raised e)) k s = Live.mk_effect [] s (Raised e).
Proof. reflexivity. Qed.

Lemma live_bind_set_message {B : Type} (v : value) (k : unit -> Live.run B)
    (s : Live.store) :
  Live.bind (Live.set_message v) k s = k tt (Live.with_message v s).
Proof. unfold Live.bind, Live.set_message. rewrite and_then_returned. apply prefixed_nil. Qed.

Lemma live_message_get (key : string) (default : value) (s : Live.store) (d : dict) :
  Live.message_now s = VDict d ->
  Live.message_get key default s =
  Live.ret (match dict_get key d with Some w => w | None => default end) s.
Proof. intros H. unfold Live.message_get. rewrite H, get_dict. reflexivity. Qed.

Lemma live_bind_message_get {B : Type} (key : string) (default : value)
    (k : value -> Live.run B) (s : Live.store) (d : dict) :
  Live.message_now s = VDict d ->
  Live.bind (Live.message_get key default) k s =
  k (match dict_get key d with Some w => w | None => default end) s.
Proof.
  intros H. unfold Live.bind. rewrite (live_message_get _ _ _ _ H).
  apply (live_bind_ret _ k s).
Qed.

Section LiveDispatch.
Variable json_loads : string -> outcome value.
Variable py_eval : string -> Live.store -> Live.evaluation.

Lemma live_dispatch (line : string) (s : Live.store) (d : dict) :
  json_loads (strip line) = Returned (VDict d) ->
  Live.handle_message json_loads py_eval line s =
  Live.handled
    ((if eq_str (method_of d) "initialize" then Live.handle_initialize
      else if eq_str (method_of d) "tools/list" then Live.handle_tools_list
      else if eq_str (method_of d) "tools/call" then Live.handle_tool_call py_eval
      else
        Live.send_response
          (error_response (request_id d) (-32601)
             ("Method not found: " ++ py_str (method_of d))))
       (Live.with_message (VDict d) s))
    [ (is_JSONDecodeError, fun e => Live.log ("JSON parse error: " ++ exn_str e));
      (is_Exception, fun e => Live.log ("Error handling message: " ++ exn_str e)) ].
Proof.
  intros Hl. unfold Live.handle_message, Live.try_except. f_equal.
  rewrite Hl. change (lift (Returned (VDict d))) with (ret (VDict d)).
  rewrite live_bind_pure, live_bind_set_message.
  assert (Hm : Live.message_now (Live.with_message (VDict d) s) = VDict d) by reflexivity.
  rewrite (live_bind_message_get _ _ _ _ _ Hm). fold (method_of d).
  destruct (eq_str (method_of d) "initialize"); [reflexivity|].
  rewrite (live_bind_message_get _ _ _ _ _ Hm). fold (method_of d).
  destruct (eq_str (method_of d) "tools/list"); [reflexivity|].
  rewrite (live_bind_message_get _ _ _ _ _ Hm). fold (method_of d).
  destruct (eq_str (method_of d) "tools/call"); [reflexivity|].
  rewrite (live_bind_message_get _ _ _ _ _ Hm). fold (request_id d).
  rewrite (live_bind_message_get _ _ _ _ _ Hm). fold (method_of d).
  reflexivity.
Qed.

End LiveDispatch.

Lemma live_bind_cong {A B : Type} (m m' : Live.run A) (k : A -> Live.run B)
    (s : Live.store) :
  m s = m' s -> Live.bind m k s = Live.bind m' k s.
Proof. unfold Live.bind. intros ->. reflexivity. Qed.

Lemma live_pure_bind {A B : Type} (m : py A) (k : A -> py B) (s : Live.store) :
  Live.bind (Live.pure m) (fun a => Live.pure (k a)) s = Live.pure (bind m k) s.
Proof.
  unfold Live.bind, Live.pure. destruct m as [t [a|e]]; simpl; [|reflexivity].
  unfold Live.and_then. simpl. destruct (k a). reflexivity.
Qed.

Lemma live_pure_try_except {A : Type} (m : py A) (accepts : exn -> bool)
    (handler : exn -> py A) (s : Live.store) :
  Live.try_except (Live.pure m) [(accepts, fun e => Live.pure (handler e))] s =
  Live.pure (try_except m [(accepts, handler)]) s.
Proof.
  unfold Live.try_except, Live.handled, Live.pure. destruct m as [t [a|e]]; simpl;
    [reflexivity|].
  destruct (accepts e); [|reflexivity]. simpl. destruct (handler e). reflexivity.
Qed.

Lemma live_message_getitem (key : string) (s : Live.store) (d : dict) :
  Live.message_now s = VDict d ->
  Live.message_getitem key s = Live.pure (getitem (VDict d) key) s.
Proof. intros H. unfold Live.message_getitem. rewrite H. reflexivity. Qed.

(** The reply of a handler that prints nothing of its own before it. *)
Lemma live_answer_pure (m : py value) (s : Live.store) :
  quiet m ->
  Live.bind (Live.pure m) (fun response => Live.send_response response) s =
  Live.pure (response <- m ;; send_response response) s.
Proof. intros _. apply (live_pure_bind m send_response s). Qed.

(** A statement of [Live] that, from the store [s], does what the
    statement [m] of the server without a store does and leaves the store alone. *)
Lemma live_bind_sim {A B : Type} (M : Live.run A) (K : A -> Live.run B)
    (m : py A) (k : A -> py B) (s : Live.store) :
  M s = Live.pure m s ->
  (forall a, snd m = Returned a -> K a s = Live.pure (k a) s) ->
  Live.bind M K s = Live.pure (bind m k) s.
Proof.
  intros HM HK. unfold Live.bind. rewrite HM. unfold Live.pure.
  destruct m as [t [a|e]]; simpl; [|reflexivity].
  rewrite and_then_returned, (HK a eq_refl). unfold Live.pure, Live.prefixed. simpl.
  destruct (k a). reflexivity.
Qed.

Lemma live_try_except_sim {A : Type} (body : Live.run A) (accepts : exn -> bool)
    (handler : exn -> Live.run A) (m : py A) (h : exn -> py A) (s : Live.store) :
  body s = Live.pure m s ->
  (forall e, handler e s = Live.pure (h e) s) ->
  Live.try_except body [(accepts, handler)] s =
  Live.pure (try_except m [(accepts, h)]) s.
Proof.
  intros Hb Hh. unfold Live.try_except, Live.handled. rewrite Hb. unfold Live.pure.
  destruct m as [t [a|e]]; simpl; [reflexivity|].
  destruct (accepts e); [|reflexivity]. simpl. rewrite Hh. unfold Live.pure. simpl.
  destruct (h e). reflexivity.
Qed.

Section LiveCalls.
Variable py_eval : string -> Live.store -> Live.evaluation.
Variable ev0 : string -> outcome string.

Lemma live_tool_call_no_params (s : Live.store) (d : dict) :
  Live.message_now s = VDict d ->
  params_of d = None ->
  Live.handle_tool_call py_eval s = Live.pure (handle_tool_call ev0 (VDict d)) s.
Proof.
  intros Hm Hp. unfold Live.handle_tool_call, handle_tool_call.
  rewrite (live_bind_message_get _ _ _ _ _ Hm), get_dict, bind_ret.
  unfold params_of in Hp.
  destruct (dict_get "params" d) as [v|]; [|discriminate].
  assert (Hv : is_dict v = false) by (destruct v; try reflexivity; discriminate).
  rewrite (get_not_dict _ _ _ Hv). reflexivity.
Qed.

Lemma returned_argument (arguments : value) (key : string) (default a : value) :
  snd (get arguments key default) = Returned a ->
  argument arguments key default = Some a.
Proof.
  destruct arguments; simpl; try discriminate.
  destruct (dict_get key members); simpl; intros H; injection H as <-; reflexivity.
Qed.

(** A call that evaluates nothing does what it does without a store,
    and leaves the store alone. *)
Lemma live_tool_call_pure (s : Live.store) (d : dict) :
  Live.message_now s = VDict d ->
  Live.call_expression d = None ->
  Live.handle_tool_call py_eval s = Live.pure (handle_tool_call ev0 (VDict d)) s.
Proof.
  intros Hm Hc. destruct (params_of d) as [params|] eqn:Hp;
    [|apply (live_tool_call_no_params s d Hm Hp)].
  unfold Live.call_expression in Hc. rewrite Hp in Hc.
  assert (Hget : forall key default,
            Live.message_get key default s = Live.pure (get (VDict d) key default) s).
  { intros. unfold Live.message_get. rewrite Hm. reflexivity. }
  assert (Hid : Live.message_getitem "id" s = Live.pure (getitem (VDict d) "id") s)
    by apply (live_message_getitem _ _ _ Hm).
  assert (Hpar : get (VDict d) "params" (VDict []) = ret (VDict params)).
  { rewrite get_dict. unfold params_of in Hp.
    destruct (dict_get "params" d) as [[]|]; try discriminate; congruence. }
  unfold Live.handle_tool_call, handle_tool_call.
  apply live_bind_sim; [apply Hget|]. rewrite Hpar. intros p Ep. injection Ep as <-.
  apply live_bind_sim; [reflexivity|]. rewrite get_dict. intros tool_name Et.
  injection Et as <-. fold (tool_of params) in *.
  apply live_bind_sim; [rewrite Hget, Hpar; reflexivity|].
  intros p Ep. injection Ep as <-.
  apply live_bind_sim; [reflexivity|]. rewrite get_dict. intros arguments Ea.
  injection Ea as <-. fold (arguments_of params) in *.
  apply live_bind_sim; [|reflexivity].
  destruct (eq_str (tool_of params) "calculate").
  - apply live_try_except_sim.
    + apply live_bind_sim; [reflexivity|]. intros expression Ee.
      apply returned_argument in Ee. rewrite Ee in Hc.
      apply live_bind_sim.
      * destruct expression; try reflexivity. discriminate Hc.
      * intros result _. apply live_bind_sim; [apply Hid|]. reflexivity.
    + intros e. apply live_bind_sim; [apply Hid|]. reflexivity.
  - destruct (eq_str (tool_of params) "reverse_string").
    + apply live_bind_sim; [reflexivity|]. intros text _.
      apply live_bind_sim; [reflexivity|]. intros reversed_text _.
      apply live_bind_sim; [apply Hid|]. reflexivity.
    + apply live_bind_sim; [apply Hid|]. reflexivity.
Qed.

End LiveCalls.

Lemma getitem_quiet_outcome (v : value) (key : string) :
  getitem v key = ([], snd (getitem v key)).
Proof.
  pose proof (quiet_getitem v key) as Q. unfold quiet in Q.
  destruct (getitem v key) as [t o]. simpl in *. subst t. reflexivity.
Qed.

Lemma getitem_raises (v : value) (key : string) (e : exn) :
  snd (getitem v key) = Raised e ->
  is_Exception e = true /\ is_JSONDecodeError e = false.
Proof.
  destruct v; simpl; try (intros H; injection H as <-; split; reflexivity).
  destruct (dict_get key members); simpl; [discriminate|].
  intros H; injection H as <-; split; reflexivity.
Qed.

Lemma live_bind_getitem_id {B : Type} (k : value -> Live.run B) (s : Live.store) :
  Live.bind (Live.message_getitem "id") k s =
  match snd (getitem (Live.message_now s) "id") with
  | Returned i => k i s
  | Raised e => Live.mk_effect [] s (Raised e)
  end.
Proof.
  unfold Live.bind, Live.message_getitem, Live.pure.
  rewrite (getitem_quiet_outcome (Live.message_now s) "id"). simpl.
  destruct (snd (getitem (Live.message_now s) "id")); [|reflexivity].
  rewrite and_then_returned. apply prefixed_nil.
Qed.

Section LiveCalculate.
Variable json_loads : string -> outcome value.
Variable py_eval : string -> Live.store -> Live.evaluation.

(** What a [calculate] call does once it evaluates a text: after what
    the evaluation printed, and from the store it left, the id is read
    from the request as it is then. *)
Lemma live_calculate (s : Live.store) (d params : dict) (source : string) :
  Live.message_now s = VDict d ->
  params_of d = Some params ->
  tool_of params = VStr "calculate" ->
  argument (arguments_of params) "expression" (VStr EmptyString) = Some (VStr source) ->
  Live.handle_tool_call py_eval s =
  match Live.result (py_eval source s) with
  | Returned result =>
      match Live.id_after (py_eval source s) with
      | Returned i =>
          Live.mk_effect
            (Live.printed (py_eval source s)
             ++ [Stdout (json_dumps
                           (text_result i ("Result: " ++ source ++ " = " ++ result)))])%list
            (Live.store_after (py_eval source s)) (Returned tt)
      | Raised e1 =>
          Live.mk_effect (Live.printed (py_eval source s))
            (Live.store_after (py_eval source s)) (Raised e1)
      end
  | Raised e =>
      if is_Exception e then
        match Live.id_after (py_eval source s) with
        | Returned i =>
            Live.mk_effect
              (Live.printed (py_eval source s)
               ++ [Stdout (json_dumps
                             (error_response i (-32000)
                                ("Calculation error: " ++ exn_str e)))])%list
              (Live.store_after (py_eval source s)) (Returned tt)
        | Raised e1 =>
            Live.mk_effect (Live.printed (py_eval source s))
              (Live.store_after (py_eval source s)) (Raised e1)
        end
      else
        Live.mk_effect (Live.printed (py_eval source s))
          (Live.store_after (py_eval source s)) (Raised e)
  end.
Proof.
  intros Hm Hp Ht Ha.
  assert (Hpar : dict_get "params" d = Some (VDict params) \/
                 (dict_get "params" d = None /\ params = [])).
  { unfold params_of in Hp. destruct (dict_get "params" d) as [[]|]; try discriminate;
      injection Hp as <-; auto. }
  assert (Hpv : match dict_get "params" d with Some w => w | None => VDict [] end
                = VDict params).
  { destruct Hpar as [-> | [-> ->]]; reflexivity. }
  unfold Live.handle_tool_call.
  rewrite (live_bind_message_get _ _ _ _ _ Hm), Hpv.
  rewrite get_dict, live_bind_pure. fold (tool_of params). rewrite Ht.
  rewrite (live_bind_message_get _ _ _ _ _ Hm), Hpv.
  rewrite get_dict, live_bind_pure. fold (arguments_of params).
  simpl eq_str. cbv iota.
  unfold Live.bind at 1. unfold Live.try_except.
  rewrite get_argument, Ha, live_bind_pure.
  unfold Live.bind at 1. unfold Live.eval.
  unfold Live.id_after.
  destruct (py_eval source s) as [p s1 [result|e]];
    cbn [Live.printed Live.store_after Live.result].
  - rewrite and_then_returned. cbv beta. rewrite live_bind_getitem_id.
    destruct (snd (getitem (Live.message_now s1) "id")) as [i|e1] eqn:Ei.
    + unfold Live.prefixed, Live.ret, Live.handled, Live.and_then, Live.send_response,
        Live.pure, send_response.
      cbn [Live.trace Live.after Live.ended fst snd]. rewrite !List.app_nil_r.
      reflexivity.
    + destruct (getitem_raises _ _ _ Ei) as [He1 _].
      unfold Live.prefixed, Live.handled.
      cbn [Live.trace Live.after Live.ended select_clause Live.select_clause].
      rewrite He1, live_bind_getitem_id, Ei.
      unfold Live.and_then. cbn [Live.trace Live.after Live.ended].
      rewrite !List.app_nil_r. reflexivity.
  - rewrite and_then_raised. unfold Live.handled.
    cbn [Live.trace Live.after Live.ended Live.select_clause].
    destruct (is_Exception e); [|reflexivity].
    rewrite live_bind_getitem_id.
    destruct (snd (getitem (Live.message_now s1) "id")) as [i|e1] eqn:Ei;
      unfold Live.ret, Live.and_then, Live.send_response, Live.pure, send_response;
      cbn [Live.trace Live.after Live.ended fst snd]; rewrite !List.app_nil_r;
      reflexivity.
Qed.

End LiveCalculate.

Lemma live_handled_pure {A : Type} (m : py A)
    (clauses : list ((exn -> bool) * (exn -> py A))) (s : Live.store) :
  Live.handled (Live.pure m s)
    (map (fun clause : (exn -> bool) * (exn -> py A) =>
            let (accepts, handler) := clause in
            (accepts, fun e => Live.pure (handler e))) clauses) =
  Live.pure (try_except m clauses) s.
Proof.
  unfold Live.handled, Live.pure, try_except. destruct m as [t [a|e]];
    cbn [Live.ended Live.trace Live.after fst snd]; [reflexivity|].
  induction clauses as [|[accepts handler] rest IH]; [reflexivity|].
  cbn [map Live.select_clause select_clause]. destruct (accepts e).
  - destruct (handler e). reflexivity.
  - exact IH.
Qed.

Section LiveLines.
Variable json_loads : string -> outcome value.
Variable py_eval : string -> Live.store -> Live.evaluation.

Lemma live_not_json (line : string) (s : Live.store) (e : exn) :
  json_loads (strip line) = Raised e ->
  Live.handle_message json_loads py_eval line s =
  if is_JSONDecodeError e then
    Live.mk_effect [Stderr ("[Python Server] JSON parse error: " ++ exn_str e)] s
      (Returned tt)
  else if is_Exception e then
    Live.mk_effect [Stderr ("[Python Server] Error handling message: " ++ exn_str e)] s
      (Returned tt)
  else Live.mk_effect [] s (Raised e).
Proof.
  intros Hl. unfold Live.handle_message, Live.try_except. rewrite Hl.
  unfold lift. rewrite live_bind_raise. unfold Live.handled.
  cbn [Live.ended Live.trace Live.after Live.select_clause].
  destruct (is_JSONDecodeError e); [reflexivity|].
  destruct (is_Exception e); reflexivity.
Qed.

Lemma live_not_object (line : string) (s : Live.store) (v : value) :
  json_loads (strip line) = Returned v ->
  is_dict v = false ->
  Live.handle_message json_loads py_eval line s =
  Live.mk_effect
    [Stderr ("[Python Server] Error handling message: '" ++ type_name v
             ++ "' object has no attribute 'get'")]
    (Live.with_message v s) (Returned tt).
Proof.
  intros Hl Hv. unfold Live.handle_message, Live.try_except. rewrite Hl.
  change (lift (Returned v)) with (ret v).
  rewrite live_bind_pure, live_bind_set_message.
  unfold Live.bind at 1. unfold Live.message_get.
  change (Live.message_now (Live.with_message v s)) with v.
  rewrite (get_not_dict _ _ _ Hv). reflexivity.
Qed.

(** A request that evaluates nothing and reads no global does what it
    does without a store; only the request object is new in the store. *)
Lemma live_line_pure (ev0 : string -> outcome string) (line : string)
    (s : Live.store) (d : dict) :
  json_loads (strip line) = Returned (VDict d) ->
  Live.expression_of d = None ->
  eq_str (method_of d) "initialize" = false ->
  eq_str (method_of d) "tools/list" = false ->
  Live.handle_message json_loads py_eval line s =
  Live.pure (handle_message json_loads ev0 line) (Live.with_message (VDict d) s).
Proof.
  intros Hl He H1 H2.
  rewrite (live_dispatch _ _ _ _ _ Hl), (dispatch _ _ _ _ Hl), H1, H2.
  unfold Live.expression_of in He.
  match goal with |- Live.handled ?r ?c = Live.pure (try_except ?m ?ca) ?s =>
    rewrite <- (live_handled_pure m ca s) end.
  f_equal. destruct (eq_str (method_of d) "tools/call").
  - apply live_tool_call_pure; [reflexivity|exact He].
  - unfold request_id. reflexivity.
Qed.

Lemma live_initialize (line : string) (s : Live.store) (d : dict) :
  json_loads (strip line) = Returned (VDict d) ->
  eq_str (method_of d) "initialize" = true ->
  Live.handle_message json_loads py_eval line s =
  match dict_get "id" d, Live.SERVER_INFO_now s with
  | Some i, Some info =>
      Live.mk_effect
        [Stdout
           (json_dumps
              (VDict
                 [ ("jsonrpc", VStr "2.0");
                   ("id", i);
                   ("result",
                    VDict
                      [ ("protocolVersion", VStr "2024-11-05");
                        ("capabilities", VDict [("tools", VDict [])]);
                        ("serverInfo", info) ]) ]))]
        (Live.with_message (VDict d) s) (Returned tt)
  | Some i, None =>
      Live.mk_effect
        [Stderr "[Python Server] Error handling message: name 'SERVER_INFO' is not defined"]
        (Live.with_message (VDict d) s) (Returned tt)
  | None, _ =>
      Live.mk_effect [Stderr "[Python Server] Error handling message: 'id'"]
        (Live.with_message (VDict d) s) (Returned tt)
  end.
Proof.
  intros Hl Hm. rewrite (live_dispatch _ _ _ _ _ Hl), Hm.
  unfold Live.handle_initialize. rewrite live_bind_getitem_id.
  change (Live.message_now (Live.with_message (VDict d) s)) with (VDict d).
  cbn [getitem]. destruct (dict_get "id" d) as [i|]; [|reflexivity].
  cbn [ret snd]. unfold Live.bind, Live.global.
  change (Live.SERVER_INFO_now (Live.with_message (VDict d) s))
    with (Live.SERVER_INFO_now s).
  destruct (Live.SERVER_INFO_now s); reflexivity.
Qed.

Lemma live_tools_list (line : string) (s : Live.store) (d : dict) :
  json_loads (strip line) = Returned (VDict d) ->
  eq_str (method_of d) "initialize" = false ->
  eq_str (method_of d) "tools/list" = true ->
  Live.handle_message json_loads py_eval line s =
  match dict_get "id" d, Live.TOOLS_now s with
  | Some i, Some tools =>
      Live.mk_effect
        [Stdout
           (json_dumps
              (VDict [ ("jsonrpc", VStr "2.0"); ("id", i);
                       ("result", VDict [("tools", tools)]) ]))]
        (Live.with_message (VDict d) s) (Returned tt)
  | Some i, None =>
      Live.mk_effect
        [Stderr "[Python Server] Error handling message: name 'TOOLS' is not defined"]
        (Live.with_message (VDict d) s) (Returned tt)
  | None, _ =>
      Live.mk_effect [Stderr "[Python Server] Error handling message: 'id'"]
        (Live.with_message (VDict d) s) (Returned tt)
  end.
Proof.
  intros Hl H1 Hm. rewrite (live_dispatch _ _ _ _ _ Hl), H1, Hm.
  unfold Live.handle_tools_list. rewrite live_bind_getitem_id.
  change (Live.message_now (Live.with_message (VDict d) s)) with (VDict d).
  cbn [getitem]. destruct (dict_get "id" d) as [i|]; [|reflexivity].
  cbn [ret snd]. unfold Live.bind, Live.global.
  change (Live.TOOLS_now (Live.with_message (VDict d) s)) with (Live.TOOLS_now s).
  destruct (Live.TOOLS_now s); reflexivity.
Qed.

End LiveLines.

Section LiveEvaluating.
Variable json_loads : string -> outcome value.
Variable py_eval : string -> Live.store -> Live.evaluation.

Lemma expression_of_call (d : dict) (source : string) :
  Live.expression_of d = Some source ->
  eq_str (method_of d) "initialize" = false
  /\ eq_str (method_of d) "tools/list" = false
  /\ eq_str (method_of d) "tools/call" = true
  /\ exists params,
       params_of d = Some params
       /\ tool_of params = VStr "calculate"
       /\ argument (arguments_of params) "expression" (VStr EmptyString)
          = Some (VStr source).
Proof.
  unfold Live.expression_of, Live.call_expression.
  destruct (eq_str (method_of d) "tools/call") eqn:Hm; [|discriminate].
  apply eq_str_true in Hm. rewrite Hm.
  destruct (params_of d) as [params|]; [|discriminate].
  destruct (eq_str (tool_of params) "calculate") eqn:Ht; [|discriminate].
  apply eq_str_true in Ht.
  destruct (argument (arguments_of params) "expression" (VStr EmptyString))
    as [[]|] eqn:Ha; try discriminate.
  intros H. injection H as <-.
  repeat split; try reflexivity. exists params. auto.
Qed.

(** A line that makes the server evaluate a text. *)
Lemma live_calculate_line (line : string) (s : Live.store) (d : dict) (source : string) :
  json_loads (strip line) = Returned (VDict d) ->
  Live.expression_of d = Some source ->
  Live.handle_message json_loads py_eval line s =
  match Live.result (py_eval source (Live.with_message (VDict d) s)) with
  | Returned result =>
      match Live.id_after (py_eval source (Live.with_message (VDict d) s)) with
      | Returned i =>
          Live.mk_effect
            (Live.printed (py_eval source (Live.with_message (VDict d) s))
             ++ [Stdout (json_dumps
                           (text_result i ("Result: " ++ source ++ " = " ++ result)))])%list
            (Live.store_after (py_eval source (Live.with_message (VDict d) s)))
            (Returned tt)
      | Raised e1 =>
          Live.mk_effect
            (Live.printed (py_eval source (Live.with_message (VDict d) s))
             ++ [Stderr ("[Python Server] Error handling message: " ++ exn_str e1)])%list
            (Live.store_after (py_eval source (Live.with_message (VDict d) s)))
            (Returned tt)
      end
  | Raised e =>
      if is_Exception e then
        match Live.id_after (py_eval source (Live.with_message (VDict d) s)) with
        | Returned i =>
            Live.mk_effect
              (Live.printed (py_eval source (Live.with_message (VDict d) s))
               ++ [Stdout (json_dumps
                             (error_response i (-32000)
                                ("Calculation error: " ++ exn_str e)))])%list
              (Live.store_after (py_eval source (Live.with_message (VDict d) s)))
              (Returned tt)
        | Raised e1 =>
            Live.mk_effect
              (Live.printed (py_eval source (Live.with_message (VDict d) s))
               ++ [Stderr ("[Python Server] Error handling message: " ++ exn_str e1)])%list
              (Live.store_after (py_eval source (Live.with_message (VDict d) s)))
              (Returned tt)
        end
      else
        Live.mk_effect (Live.printed (py_eval source (Live.with_message (VDict d) s)))
          (Live.store_after (py_eval source (Live.with_message (VDict d) s)))
          (Raised e)
  end.
Proof.
  intros Hl He.
  destruct (expression_of_call _ _ He) as (H1 & H2 & H3 & params & Hp & Ht & Ha).
  rewrite (live_dispatch _ _ _ _ _ Hl), H1, H2, H3.
  rewrite (live_calculate py_eval (Live.with_message (VDict d) s) d params source
             eq_refl Hp Ht Ha).
  unfold Live.id_after.
  destruct (py_eval source (Live.with_message (VDict d) s)) as [p s1 [result|e]];
    cbn [Live.printed Live.store_after Live.result].
  - destruct (snd (getitem (Live.message_now s1) "id")) as [i|e1] eqn:Ei;
      [reflexivity|].
    destruct (getitem_raises _ _ _ Ei) as [Hx Hj].
    unfold Live.handled. cbn [Live.ended Live.trace Live.after Live.select_clause].
    rewrite Hj, Hx. reflexivity.
  - destruct (is_Exception e) eqn:Hc.
    + destruct (snd (getitem (Live.message_now s1) "id")) as [i|e1] eqn:Ei;
        [reflexivity|].
      destruct (getitem_raises _ _ _ Ei) as [Hx Hj].
      unfold Live.handled. cbn [Live.ended Live.trace Live.after Live.select_clause].
      rewrite Hj, Hx. reflexivity.
    + unfold Live.handled. cbn [Live.ended Live.trace Live.after Live.select_clause].
      rewrite Hc, (leaving_not_decode_error _ Hc). reflexivity.
Qed.


End LiveEvaluating.

Lemma on_stdout_app (t t' : list event) :
  Live.on_stdout (t ++ t')%list = (Live.on_stdout t ++ Live.on_stdout t')%list.
Proof. apply flat_map_app. Qed.


Section LiveRuns.
Variable json_loads : string -> outcome value.
Variable py_eval : string -> Live.store -> Live.evaluation.


Lemma for_stdin_line (line : string) (rest : list Live.read) (s : Live.store) :
  Live.stdin_closed s = false ->
  Live.for_stdin (Live.Line line :: rest) (Live.serve json_loads py_eval) s =
  Live.and_then (Live.serve json_loads py_eval line s)
    (fun _ => Live.for_stdin rest (Live.serve json_loads py_eval)).
Proof. intros H. cbn [Live.for_stdin]. rewrite H. reflexivity. Qed.




End LiveRuns.

Section LiveRegistry.
Variable json_loads : string -> outcome value.
Variable py_eval : string -> Live.store -> Live.evaluation.



End LiveRegistry.

Section LiveOpen.
Variable json_loads : string -> outcome value.
Variable py_eval : string -> Live.store -> Live.evaluation.


End LiveOpen.








Section LiveReplies.
Variable json_loads : string -> outcome value.
Variable py_eval : string -> Live.store -> Live.evaluation.




End LiveReplies.








(** X14.  No routed request is answered without an id.  One that
    evaluates nothing and has no [id] member leaves stdout empty.  One
    whose expression is evaluated is judged on the request as the
    evaluation left it: with no [id] there, the server writes no
    response, whether the request came with an id or not, and stdout
    holds what the evaluation printed and nothing else. *)
Theorem routed_unanswered_without_id
    (json_loads : string -> outcome value)
    (py_eval : string -> Live.store -> Live.evaluation)
    (line : string) (s : Live.store) (d : dict) :
  json_loads (strip line) = Returned (VDict d) ->
  routed (method_of d) = true ->
  (Live.expression_of d = None ->
   dict_get "id" d = None ->
   Live.stdout_of (Live.handle_message json_loads py_eval line s) = [])
  /\ (forall source e,
        Live.expression_of d = Some source ->
        Live.id_after (py_eval source (Live.with_message (VDict d) s)) = Raised e ->
        Live.stdout_of (Live.handle_message json_loads py_eval line s) =
        Live.on_stdout (Live.printed (py_eval source (Live.with_message (VDict d) s)))).
Proof.
  intros Hl Hr. split.
  - intros He Hi.
    destruct (eq_str (method_of d) "initialize") eqn:H1.
    { rewrite (live_initialize _ _ _ _ _ Hl H1), Hi. reflexivity. }
    destruct (eq_str (method_of d) "tools/list") eqn:H2.
    { rewrite (live_tools_list _ _ _ _ _ Hl H1 H2), Hi. reflexivity. }
    rewrite (live_line_pure _ _ (fun _ => Returned EmptyString) _ _ _ Hl He H1 H2).
    change (stdout_of (handle_message json_loads (fun _ => Returned EmptyString) line) = []).
    destruct (stdout_of (handle_message json_loads (fun _ => Returned EmptyString) line))
      as [|x rest] eqn:E; [reflexivity|].
    destruct (routed_reply json_loads (fun _ => Returned EmptyString) line x d Hl Hr)
      as (i & _ & Hsome & _).
    + rewrite E. left. reflexivity.
    + rewrite Hi in Hsome. discriminate.
  - intros source e He Hi.
    rewrite (live_calculate_line _ _ _ _ _ _ Hl He), Hi.
    destruct (Live.result (py_eval source (Live.with_message (VDict d) s)))
      as [result|e'].
    + unfold Live.stdout_of. cbn [Live.trace].
      rewrite (on_stdout_app _ [Stderr _]). apply List.app_nil_r.
    + destruct (is_Exception e'); [|reflexivity].
      unfold Live.stdout_of. cbn [Live.trace].
      rewrite (on_stdout_app _ [Stderr _]). apply List.app_nil_r.
Qed.

Lemma routed_unanswered_without_id_witness :
  Live.id_after
    (Live.sample_eval "message.pop('id')"
       (Live.with_message
          (VDict [ ("id", VInt 5); ("method", VStr "tools/call");
                   ("params", VDict [ ("name", VStr "calculate");
                                      ("arguments",
                                       VDict [("expression", VStr "message.pop('id')")]) ]) ])
          Live.initial)) = Raised (mk_exn KeyError "'id'")
  /\ Live.stdout_of
       (Live.handle_message sample_loads Live.sample_eval
          (quoted "{`id`:5,`method`:`tools/call`,`params`:{`name`:`calculate`,`arguments`:{`expression`:`message.pop('id')`}}}")
          Live.initial) = []
  /\ Live.stdout_of
       (Live.handle_message sample_loads Live.sample_eval
          (quoted "{`method`:`tools/list`}") Live.initial) = [].
Proof.
  split; [reflexivity|]. split.
  - destruct (routed_unanswered_without_id sample_loads Live.sample_eval
                (quoted "{`id`:5,`method`:`tools/call`,`params`:{`name`:`calculate`,`arguments`:{`expression`:`message.pop('id')`}}}")
                Live.initial
                [ ("id", VInt 5); ("method", VStr "tools/call");
                  ("params", VDict [ ("name", VStr "calculate");
                                     ("arguments",
                                      VDict [("expression", VStr "message.pop('id')")]) ]) ]
                eq_refl eq_refl) as [_ H].
    apply (H "message.pop('id')" (mk_exn KeyError "'id'")); reflexivity.
  - destruct (routed_unanswered_without_id sample_loads Live.sample_eval
                (quoted "{`method`:`tools/list`}") Live.initial
                [("method", VStr "tools/list")] eq_refl eq_refl) as [H _].
    apply H; reflexivity.
Defined.

Section LiveSurvival.
Variable json_loads : string -> outcome value.
Variable py_eval : string -> Live.store -> Live.evaluation.







End LiveSurvival.





Section LiveComputed.
Variable json_loads : string -> outcome value.
Variable ev0 : string -> outcome string.

Lemma live_eval_computed (expression : value) (s : Live.store) :
  Live.eval (Live.only_computes ev0) expression s = Live.pure (eval ev0 expression) s.
Proof. destruct expression; reflexivity. Qed.

(** With expressions that only compute, a call does what it does
    without a store, and leaves the store alone. *)
Lemma live_tool_call_computed (s : Live.store) (d : dict) :
  Live.message_now s = VDict d ->
  Live.handle_tool_call (Live.only_computes ev0) s =
  Live.pure (handle_tool_call ev0 (VDict d)) s.
Proof.
  intros Hm. destruct (params_of d) as [params|] eqn:Hp;
    [|apply (live_tool_call_no_params _ ev0 s d Hm Hp)].
  assert (Hget : forall key default,
            Live.message_get key default s = Live.pure (get (VDict d) key default) s).
  { intros. unfold Live.message_get. rewrite Hm. reflexivity. }
  assert (Hid : Live.message_getitem "id" s = Live.pure (getitem (VDict d) "id") s)
    by apply (live_message_getitem _ _ _ Hm).
  assert (Hpar : get (VDict d) "params" (VDict []) = ret (VDict params)).
  { rewrite get_dict. unfold params_of in Hp.
    destruct (dict_get "params" d) as [[]|]; try discriminate; congruence. }
  unfold Live.handle_tool_call, handle_tool_call.
  apply live_bind_sim; [apply Hget|]. rewrite Hpar. intros p Ep. injection Ep as <-.
  apply live_bind_sim; [reflexivity|]. rewrite get_dict. intros tool_name Et.
  injection Et as <-. fold (tool_of params) in *.
  apply live_bind_sim; [rewrite Hget, Hpar; reflexivity|].
  intros p Ep. injection Ep as <-.
  apply live_bind_sim; [reflexivity|]. rewrite get_dict. intros arguments Ea.
  injection Ea as <-. fold (arguments_of params) in *.
  apply live_bind_sim; [|reflexivity].
  destruct (eq_str (tool_of params) "calculate").
  - apply live_try_except_sim.
    + apply live_bind_sim; [reflexivity|]. intros expression _.
      apply live_bind_sim; [apply live_eval_computed|].
      intros result _. apply live_bind_sim; [apply Hid|]. reflexivity.
    + intros e. apply live_bind_sim; [apply Hid|]. reflexivity.
  - destruct (eq_str (tool_of params) "reverse_string").
    + apply live_bind_sim; [reflexivity|]. intros text _.
      apply live_bind_sim; [reflexivity|]. intros reversed_text _.
      apply live_bind_sim; [apply Hid|]. reflexivity.
    + apply live_bind_sim; [apply Hid|]. reflexivity.
Qed.

(** With expressions that only compute and the two globals as the module
    defines them, a line is handled as it is without a store; the store
    keeps the globals and the stream, only [message] is new. *)
Lemma live_line_computed (line : string) (s : Live.store) :
  Live.TOOLS_now s = Some TOOLS ->
  Live.SERVER_INFO_now s = Some SERVER_INFO ->
  exists s1,
    Live.handle_message json_loads (Live.only_computes ev0) line s =
    Live.pure (handle_message json_loads ev0 line) s1
    /\ (s1 = s \/ exists v, s1 = Live.with_message v s).
Proof.
  intros Ht Hi.
  destruct (json_loads (strip line)) as [v|e] eqn:Hl.
  - exists (Live.with_message v s). split; [|right; exists v; reflexivity].
    destruct (is_dict v) eqn:Hv.
    + destruct v; try discriminate Hv. rename members into d.
      destruct (eq_str (method_of d) "initialize") eqn:H1.
      { rewrite (live_initialize _ _ _ _ _ Hl H1), Hi.
        destruct (dict_get "id" d) as [i|] eqn:Hid.
        - rewrite (dispatch _ _ _ _ Hl), H1, (handle_initialize_id _ _ Hid). reflexivity.
        - rewrite (handler_without_id_logged json_loads ev0 _ _ Hl Hid);
            [reflexivity|rewrite H1; reflexivity]. }
      destruct (eq_str (method_of d) "tools/list") eqn:H2.
      { rewrite (live_tools_list _ _ _ _ _ Hl H1 H2), Ht.
        destruct (dict_get "id" d) as [i|] eqn:Hid.
        - rewrite (dispatch _ _ _ _ Hl), H1, H2, (handle_tools_list_id _ _ Hid).
          reflexivity.
        - rewrite (handler_without_id_logged json_loads ev0 _ _ Hl Hid);
            [reflexivity|rewrite H2; apply orb_true_r]. }
      destruct (eq_str (method_of d) "tools/call") eqn:H3.
      * rewrite (live_dispatch _ _ _ _ _ Hl), (dispatch _ _ _ _ Hl), H1, H2, H3.
        rewrite (live_tool_call_computed (Live.with_message (VDict d) s) d eq_refl).
        match goal with |- Live.handled (Live.pure ?m ?s1) _ = Live.pure (try_except ?m ?ca) ?s1 =>
          exact (live_handled_pure m ca s1) end.
      * apply (live_line_pure json_loads (Live.only_computes ev0) ev0 _ _ _ Hl);
          [unfold Live.expression_of; rewrite H3; reflexivity|exact H1|exact H2].
    + rewrite (live_not_object _ _ _ _ _ Hl Hv), (not_object_logged _ ev0 _ _ Hl Hv).
      reflexivity.
  - exists s. split; [|left; reflexivity].
    rewrite (live_not_json _ _ _ _ _ Hl). unfold handle_message. rewrite Hl.
    unfold lift, bind, try_except. cbn [select_clause fst snd].
    destruct (is_JSONDecodeError e); [reflexivity|].
    destruct (is_Exception e); reflexivity.
Qed.

Lemma for_stdin_computed (stdin : list string) (s : Live.store) :
  Live.TOOLS_now s = Some TOOLS ->
  Live.SERVER_INFO_now s = Some SERVER_INFO ->
  Live.stdin_closed s = false ->
  exists s1,
    Live.for_stdin (map Live.Line stdin)
      (Live.serve json_loads (Live.only_computes ev0)) s =
    Live.pure (for_each stdin (serve json_loads ev0)) s1.
Proof.
  revert s. induction stdin as [|line stdin IH]; intros s Ht Hi Hc.
  - exists s. cbn [map Live.for_stdin]. rewrite Hc. reflexivity.
  - cbn [map for_each]. rewrite (for_stdin_line _ _ _ _ _ Hc).
    assert (Hs : exists s1,
               Live.serve json_loads (Live.only_computes ev0) line s =
               Live.pure (serve json_loads ev0 line) s1
               /\ (s1 = s \/ exists v, s1 = Live.with_message v s)).
    { unfold Live.serve, serve. destruct (nonempty (strip line)).
      - apply live_line_computed; assumption.
      - exists s. split; [reflexivity|left; reflexivity]. }
    destruct Hs as (s1 & -> & Hs1).
    assert (Hk : Live.TOOLS_now s1 = Some TOOLS
                 /\ Live.SERVER_INFO_now s1 = Some SERVER_INFO
                 /\ Live.stdin_closed s1 = false).
    { destruct Hs1 as [->|[v ->]]; auto. }
    destruct Hk as (Ht1 & Hi1 & Hc1).
    destruct (serve json_loads ev0 line) as [t [[]|e]].
    + unfold Live.pure. cbn [fst snd]. rewrite and_then_returned.
      destruct (IH s1 Ht1 Hi1 Hc1) as (s2 & ->). exists s2.
      unfold Live.prefixed, Live.pure, bind. cbn [Live.trace Live.after Live.ended].
      destruct (for_each stdin (serve json_loads ev0)). reflexivity.
    + exists s1. reflexivity.
Qed.

Lemma live_main_computed (stdin : list string) (s : Live.store) :
  Live.TOOLS_now s = Some TOOLS ->
  Live.SERVER_INFO_now s = Some SERVER_INFO ->
  Live.stdin_closed s = false ->
  exists s1,
    Live.main json_loads (Live.only_computes ev0) (map Live.Line stdin) s =
    Live.pure (main json_loads ev0 stdin) s1.
Proof.
  intros Ht Hi Hc. destruct (for_stdin_computed stdin s Ht Hi Hc) as (s1 & H).
  exists s1. unfold Live.main, main, Live.bind, Live.log, log.
  unfold Live.pure at 1 2. cbn [fst snd]. rewrite !and_then_returned.
  unfold Live.try_finally, Live.try_except. rewrite H.
  unfold Live.handled, Live.pure, try_finally, try_except, bind, Live.prefixed.
  destruct (for_each stdin (serve json_loads ev0)) as [t [[]|e]];
    cbn [Live.ended Live.trace Live.after Live.select_clause select_clause fst snd];
    [reflexivity|].
  destruct (is_KeyboardInterrupt e); [reflexivity|].
  destruct (is_Exception e); reflexivity.
Qed.

End LiveComputed.

(** X19.  When expressions only compute -- they print nothing and leave
    the request, the globals and the input stream as they are -- and the
    two globals are as the module defines them, the server with the
    store does what the server without a store does: every line leaves
    the same lines on the two channels and ends the same way, and so
    does a whole run of [main] on an open stream whose reads all
    succeed. *)
Theorem computing_expressions_agree
    (json_loads : string -> outcome value) (ev0 : string -> outcome string)
    (stdin : list string) (s : Live.store) :
  Live.TOOLS_now s = Some TOOLS ->
  Live.SERVER_INFO_now s = Some SERVER_INFO ->
  Live.stdin_closed s = false ->
  (forall line,
      Live.trace (Live.handle_message json_loads (Live.only_computes ev0) line s)
      = fst (handle_message json_loads ev0 line)
      /\ Live.ended (Live.handle_message json_loads (Live.only_computes ev0) line s)
         = snd (handle_message json_loads ev0 line))
  /\ Live.trace
       (Live.main json_loads (Live.only_computes ev0) (map Live.Line stdin) s)
     = fst (main json_loads ev0 stdin)
  /\ Live.ended
       (Live.main json_loads (Live.only_computes ev0) (map Live.Line stdin) s)
     = snd (main json_loads ev0 stdin).
Proof.
  intros Ht Hi Hc. split.
  - intros line. destruct (live_line_computed json_loads ev0 line s Ht Hi) as (s1 & -> & _).
    split; reflexivity.
  - destruct (live_main_computed json_loads ev0 stdin s Ht Hi Hc) as (s1 & ->).
    split; reflexivity.
Qed.

Lemma computing_expressions_agree_witness :
  Live.trace
    (Live.main sample_loads (Live.only_computes sample_eval)
       (map Live.Line
          [ "oops";
            quoted "{`id`:1,`method`:`tools/call`,`params`:{`name`:`calculate`,`arguments`:{`expression`:`2 + 2`}}}";
            quoted "{`id`:2,`method`:`tools/list`}" ])
       Live.initial)
  = fst (main sample_loads sample_eval
           [ "oops";
             quoted "{`id`:1,`method`:`tools/call`,`params`:{`name`:`calculate`,`arguments`:{`expression`:`2 + 2`}}}";
             quoted "{`id`:2,`method`:`tools/list`}" ]).
Proof.
  destruct (computing_expressions_agree sample_loads sample_eval
              [ "oops";
                quoted "{`id`:1,`method`:`tools/call`,`params`:{`name`:`calculate`,`arguments`:{`expression`:`2 + 2`}}}";
                quoted "{`id`:2,`method`:`tools/list`}" ]
              Live.initial eq_refl eq_refl eq_refl) as (_ & H & _).
  exact H.
Defined.
